(** * Data-center location analysis: score classification, result rendering
      and the siting decision engine

    The presentation components ([AnalysisResults], [DecisionAnalysis], the
    custom-coordinate handler of [App]) are embedded from their TypeScript
    source.  A JavaScript [number] is an IEEE-754 binary64 value; it is
    modelled by [spec_float], and the relational operators of the source by
    [SFleb]/[SFltb], which return [false] as soon as an operand is NaN. *)

From Stdlib Require Import ZArith List Ascii String Bool Lia QArith Qminmax.
From Stdlib Require Import Floats.SpecFloat.
Import ListNotations.

Local Open Scope string_scope.
Local Open Scope Z_scope.

(** ** JavaScript numbers *)

Module JS.

Definition number := spec_float.

Definition prec : Z := 53.
Definition emax : Z := 1024.

Definition NaN : number := S754_nan.

(** An integer literal. *)
Definition ofZ (z : Z) : number := binary_normalize prec emax z 0 false.

(** A decimal literal [n / d], rounded to the nearest double as the
    JavaScript reader does. *)
Definition ofDecimal (n d : Z) : number := SFdiv prec emax (ofZ n) (ofZ d).

(** [a >= b], [a <= b], [a < b], [a > b]. *)
Definition ge (a b : number) : bool := SFleb b a.
Definition le (a b : number) : bool := SFleb a b.
Definition lt (a b : number) : bool := SFltb a b.
Definition gt (a b : number) : bool := SFltb b a.

(** ToBoolean on a number: NaN, +0 and -0 are falsy. *)
Definition truthy (a : number) : bool :=
  match a with
  | S754_nan | S754_zero _ => false
  | _ => true
  end.

(** ToBoolean on a string: only the empty string is falsy. *)
Definition truthyStr (s : string) : bool :=
  match s with
  | EmptyString => false
  | _ => true
  end.

(** [v || d] where [v] is the result of an optional chain ([None] stands
    for [undefined]/[null]). *)
Definition orElse (v : option number) (d : number) : number :=
  match v with
  | Some n => if truthy n then n else d
  | None => d
  end.

End JS.

Declare Scope js_scope.
Delimit Scope js_scope with js.
Notation "a >= b" := (JS.ge a b) : js_scope.
Notation "a <= b" := (JS.le a b) : js_scope.
Notation "a < b" := (JS.lt a b) : js_scope.
Notation "a > b" := (JS.gt a b) : js_scope.
Notation "- a" := (SFopp a) : js_scope.

(** The numeric literals of the source. *)
Definition n0 : JS.number := Eval cbv in JS.ofZ 0.
Definition n45 : JS.number := Eval cbv in JS.ofZ 45.
Definition n60 : JS.number := Eval cbv in JS.ofZ 60.
Definition n75 : JS.number := Eval cbv in JS.ofZ 75.
Definition n90 : JS.number := Eval cbv in JS.ofZ 90.
Definition n180 : JS.number := Eval cbv in JS.ofZ 180.

(** ** Levels

    The five ordinal levels and the labels the result payload and the
    components use for them. *)

Inductive Level := VeryPoor | Poor | Fair | Good | Excellent.

Definition levelLabel (l : Level) : string :=
  match l with
  | Excellent => "优秀"
  | Good => "良好"
  | Fair => "一般"
  | Poor => "较差"
  | VeryPoor => "很差"
  end.

Definition levelOfLabel (s : string) : option Level :=
  if String.eqb s "优秀" then Some Excellent
  else if String.eqb s "良好" then Some Good
  else if String.eqb s "一般" then Some Fair
  else if String.eqb s "较差" then Some Poor
  else if String.eqb s "很差" then Some VeryPoor
  else None.

Definition levelRank (l : Level) : nat :=
  match l with
  | VeryPoor => 0
  | Poor => 1
  | Fair => 2
  | Good => 3
  | Excellent => 4
  end%nat.

Definition levelLe (a b : Level) : Prop := (levelRank a <= levelRank b)%nat.

(** ** The result payload

    The components receive [data : any]; the fields they read are given
    here with every level of the optional chains ([?.]) as an [option]. *)

Module Payload.

Record OverallScore := { score : option JS.number; level : option string }.

Record RiskAssessment := {
  risk_level : option string;
  risks : option (list string);
  mitigation_measures : option (list string) }.

Record DecisionRecommendation := {
  overall_score : option OverallScore;
  detailed_scores : option (list (string * OverallScore));
  decision_level : option string;
  risk_assessment : option RiskAssessment;
  recommendations : option (list string);
  analysis_date : option string }.

Record AnalysisData := {
  decision_recommendation : option DecisionRecommendation }.

(** [o.key] on an object given by its entries. *)
Definition field {A} (key : string) (o : list (string * A)) : option A :=
  match find (fun kv => String.eqb (fst kv) key) o with
  | Some kv => Some (snd kv)
  | None => None
  end.

(** [a?.f] *)
Definition chain {A B} (a : option A) (f : A -> option B) : option B :=
  match a with
  | Some x => f x
  | None => None
  end.

End Payload.

Notation "a ?. f" := (Payload.chain a f) (at level 40, left associativity).

(** What a component draws for the composite score: the circular progress
    with its percentage, stroke colour and level caption. *)
Record ScoreCircle := {
  percent : JS.number;
  strokeColor : string;
  caption : string }.

(** ** [AnalysisResults] *)

Module AnalysisResults.

Definition getScoreColor (score : JS.number) : string :=
  if (score >= n90)%js then "#52c41a"
  else if (score >= n75)%js then "#1890ff"
  else if (score >= n60)%js then "#faad14"
  else if (score >= n45)%js then "#ff7875"
  else "#f5222d".

Definition getScoreLevel (score : JS.number) : string :=
  if (score >= n90)%js then "优秀"
  else if (score >= n75)%js then "良好"
  else if (score >= n60)%js then "一般"
  else if (score >= n45)%js then "较差"
  else "很差".

(** The composite-score circle of the decision card; [None] is the
    placeholder card drawn when [data] is falsy. *)
Definition overallCircle (data : option Payload.AnalysisData)
  : option ScoreCircle :=
  match data with
  | None => None
  | Some d =>
      let decision_recommendation := Payload.decision_recommendation d in
      let s :=
        JS.orElse (decision_recommendation ?. Payload.overall_score
                                           ?. Payload.score) n0 in
      Some {| percent := s;
              strokeColor := getScoreColor s;
              caption := getScoreLevel s |}
  end.

End AnalysisResults.

(** ** [DecisionAnalysis] *)

Module DecisionAnalysis.

Definition getScoreColor (score : JS.number) : string :=
  if (score >= n90)%js then "#52c41a"
  else if (score >= n75)%js then "#1890ff"
  else if (score >= n60)%js then "#faad14"
  else if (score >= n45)%js then "#ff7875"
  else "#f5222d".

Definition getScoreLevel (score : JS.number) : string :=
  if (score >= n90)%js then "优秀"
  else if (score >= n75)%js then "良好"
  else if (score >= n60)%js then "一般"
  else if (score >= n45)%js then "较差"
  else "很差".

Definition overallCircle (dr : option Payload.DecisionRecommendation)
  : ScoreCircle :=
  let s := JS.orElse (dr ?. Payload.overall_score ?. Payload.score) n0 in
  {| percent := s;
     strokeColor := getScoreColor s;
     caption := getScoreLevel s |}.

(** The risk-level tag: colour and text. *)
Definition riskTag (dr : option Payload.DecisionRecommendation)
  : string * string :=
  let rl := dr ?. Payload.risk_assessment ?. Payload.risk_level in
  let eqs (v : option string) (s : string) :=
    match v with Some x => String.eqb x s | None => false end in
  (if eqs rl "低" then "green"
   else if eqs rl "中" then "orange" else "red",
   match rl with
   | Some x => if JS.truthyStr x then x else "未知"
   | None => "未知"
   end).

(** [x?.length > 0] *)
Definition nonEmpty (l : option (list string)) : bool :=
  match l with
  | Some xs => (0 <? List.length xs)%nat
  | None => false
  end.

(** The list of main risks, drawn only when it has an element. *)
Definition risksPanel (dr : option Payload.DecisionRecommendation)
  : option (list string) :=
  let rs := dr ?. Payload.risk_assessment ?. Payload.risks in
  if nonEmpty rs then rs else None.

(** The mitigation column: the list of measures, or the informational
    alert standing for "no mitigation needed". *)
Inductive MitigationPanel :=
| MeasureList (dataSource : list string)
| NoMitigationAlert (message description : string).

Definition mitigationPanel (dr : option Payload.DecisionRecommendation)
  : MitigationPanel :=
  let ms := dr ?. Payload.risk_assessment ?. Payload.mitigation_measures in
  if nonEmpty ms
  then MeasureList (match ms with Some xs => xs | None => [] end)
  else NoMitigationAlert
         "暂无风险缓解措施"
         "当前风险评估显示风险较低，无需特殊缓解措施。".

(** The four key-indicator statistics: title and value. *)
Definition keyIndicators (dr : option Payload.DecisionRecommendation)
  : list (string * JS.number) :=
  let value (key : string) :=
    JS.orElse (dr ?. Payload.detailed_scores ?. Payload.field key
                  ?. Payload.score) n0 in
  [("土地适宜性", value "land_suitability");
   ("能源资源", value "energy_resources");
   ("经济可行性", value "economic_feasibility");
   ("环境影响", value "environmental_impact")].

Record View := {
  overall : ScoreCircle;
  risk : string * string;
  mainRisks : option (list string);
  mitigation : MitigationPanel;
  indicators : list (string * JS.number) }.

(** The component; [None] is the placeholder card drawn when [data] is
    falsy. *)
Definition render (data : option Payload.AnalysisData) : option View :=
  match data with
  | None => None
  | Some d =>
      let decision_recommendation := Payload.decision_recommendation d in
      Some {| overall := overallCircle decision_recommendation;
              risk := riskTag decision_recommendation;
              mainRisks := risksPanel decision_recommendation;
              mitigation := mitigationPanel decision_recommendation;
              indicators := keyIndicators decision_recommendation |}
  end.

(** The colour of the decision-level tag. *)
Definition getDecisionLevelColor (level : string) : string :=
  if String.eqb level "强烈推荐" then "green"
  else if String.eqb level "推荐" then "blue"
  else if String.eqb level "可以考虑" then "orange"
  else if String.eqb level "不推荐" then "red"
  else if String.eqb level "强烈不推荐" then "red"
  else "default".

(** [v || d] on an optional string. *)
Definition orStr (v : option string) (d : string) : string :=
  match v with
  | Some x => if JS.truthyStr x then x else d
  | None => d
  end.

(** The decision-level tag: colour and text. *)
Definition decisionTag (dr : option Payload.DecisionRecommendation)
  : string * string :=
  let dl := dr ?. Payload.decision_level in
  (getDecisionLevelColor (orStr dl ""), orStr dl "未知").

(** Whether a character occurs in a string. *)
Fixpoint occurs (c : ascii) (s : string) : bool :=
  match s with
  | EmptyString => false
  | String d rest => Ascii.eqb d c || occurs c rest
  end.

(** [criterion.replace('_', ' ')]: the first underscore, if any, becomes
    a space. *)
Fixpoint replaceFirst (s : string) : string :=
  match s with
  | EmptyString => EmptyString
  | String c rest =>
      if Ascii.eqb c "_"%char then String " "%char rest
      else String c (replaceFirst rest)
  end.

Definition n100 : JS.number := Eval cbv in JS.ofZ 100.

Record RadarPoint (L : Type) := {
  criterion : L;
  score : option JS.number;
  fullMark : JS.number }.
Arguments criterion {L} _.
Arguments score {L} _.
Arguments fullMark {L} _.

(** The value of an entry of [detailed_scores] as [Object.entries] yields
    it: [null] or [undefined], a primitive, or a score record. *)
Inductive EntryValue :=
| Nullish
| Primitive
| Scored (o : Payload.OverallScore).

(** [score.score]; reading a property of [null] or [undefined] throws a
    TypeError, for which [None] stands. *)
Definition scoreOfEntry (v : EntryValue) : option (option JS.number) :=
  match v with
  | Nullish => None
  | Primitive => Some None
  | Scored o => Some (Payload.score o)
  end.

(** [xs.map(f)] for an [f] that may throw. *)
Fixpoint mapThrowing {A B} (f : A -> option B) (xs : list A)
  : option (list B) :=
  match xs with
  | [] => Some []
  | x :: rest =>
      match f x with
      | None => None
      | Some y =>
          match mapThrowing f rest with
          | None => None
          | Some ys => Some (y :: ys)
          end
      end
  end.

(** The radar data, one point per entry of [detailed_scores]; [None]
    stands for the TypeError of a nullish entry. *)
Definition radarData (detailed_scores : option (list (string * EntryValue)))
  : option (list (RadarPoint string)) :=
  match detailed_scores with
  | Some entries =>
      mapThrowing
        (fun kv =>
           match scoreOfEntry (snd kv) with
           | Some sc => Some {| criterion := replaceFirst (fst kv);
                                score := sc;
                                fullMark := n100 |}
           | None => None
           end)
        entries
  | None => Some []
  end.

(** The entries of a payload whose detailed scores are all records. *)
Definition entriesOf (dr : option Payload.DecisionRecommendation)
  : option (list (string * EntryValue)) :=
  match dr ?. Payload.detailed_scores with
  | Some entries => Some (map (fun kv => (fst kv, Scored (snd kv))) entries)
  | None => None
  end.

Definition criteriaLabels : list (string * string) :=
  [("land suitability", "土地适宜性");
   ("energy resources", "能源资源");
   ("grid capacity", "电网容量");
   ("economic feasibility", "经济可行性");
   ("environmental impact", "环境影响")].

(** What [criteriaLabels[key] || key] evaluates to: a text, or the value
    an object inherits under that name. *)
Inductive Label :=
| Text (s : string)
| Inherited (key : string).

Section Labels.

(** The property names every object inherits in the host. *)
Variable inherited : string -> bool.

Definition criteriaLabel (key : string) : Label :=
  match Payload.field key criteriaLabels with
  | Some zh => if JS.truthyStr zh then Text zh else Text key
  | None => if inherited key then Inherited key else Text key
  end.

Definition radarDataWithLabels
           (detailed_scores : option (list (string * EntryValue)))
  : option (list (RadarPoint Label)) :=
  match radarData detailed_scores with
  | Some points =>
      Some (map (fun item => {| criterion := criteriaLabel (criterion item);
                                score := score item;
                                fullMark := fullMark item |})
                points)
  | None => None
  end.

End Labels.

End DecisionAnalysis.

(** ** [App]: the custom-coordinate button *)

Module App.

(** What a click does: issue the analysis request through
    [handleAnalyze], or raise an alert. *)
Inductive Effect :=
| HandleAnalyze (lat lng radius : JS.number)
| Alert (msg : string).

Section OnClick.

(** The built-in [parseFloat] of the host. *)
Variable parseFloat : string -> JS.number.

Definition onClick (customLat customLng : string)
                   (customRadius : JS.number) : list Effect :=
  if JS.truthyStr customLat && JS.truthyStr customLng then
    let lat := parseFloat customLat in
    let lng := parseFloat customLng in
    if ((lat >= - n90)%js && (lat <= n90)%js
        && (lng >= - n180)%js && (lng <= n180)%js)%bool
    then [HandleAnalyze lat lng customRadius]
    else [Alert "请输入有效的坐标范围：纬度(-90到90)，经度(-180到180)"]
  else [Alert "请输入纬度和经度"].

End OnClick.

End App.

(** ** The siting decision engine

    The engine that produces the payload is not among the presentation
    sources; its components are given here as the specification words
    them, over exact rationals. *)

Module Engine.

Local Open Scope Q_scope.

(** Modelled from the spec: the criterion identifiers of the data model
    and of the [detailed_scores] wire shape. *)
Inductive CriterionId :=
| land_suitability
| energy_resources
| grid_capacity
| economic_feasibility
| environmental_impact.

(** Modelled from the spec: the criteria every analysis scores. *)
Definition allCriteria : list CriterionId :=
  [land_suitability; energy_resources; grid_capacity;
   economic_feasibility; environmental_impact].

(** Equality test on criterion identifiers. *)
Definition criterionEqb (a b : CriterionId) : bool :=
  match a, b with
  | land_suitability, land_suitability
  | energy_resources, energy_resources
  | grid_capacity, grid_capacity
  | economic_feasibility, economic_feasibility
  | environmental_impact, environmental_impact => true
  | _, _ => false
  end.

(** Modelled from the spec: the direction of a criterion. *)
Inductive Direction := benefit | cost.

(** Modelled from the spec: the two aggregation groups of section 4.3. *)
Inductive Group := economic | natural_technical.

(** Equality test on groups. *)
Definition groupEqb (a b : Group) : bool :=
  match a, b with
  | economic, economic | natural_technical, natural_technical => true
  | _, _ => false
  end.

(** Modelled from the spec: the Criterion of the data model (direction,
    weight, group, declared physical domain, normalization curve); the
    identifier is the key under which the configuration holds it. *)
Record Criterion := {
  direction : Direction;
  weight : Q;
  group : Group;
  domainLo : Q;
  domainHi : Q;
  curve : Q -> Q }.

(** Modelled from the spec: the GoalSpec of a group, a target and a
    priority weight. *)
Record GoalSpec := { target : Q; priority : Q }.

(** Modelled from the spec: the five ordinal decision tiers. *)
Inductive Tier :=
| StronglyNotRecommended
| NotRecommended
| WorthConsidering
| Recommended
| StronglyRecommended.

(** Modelled from the spec: the static configuration (criteria, weights,
    goals, and the rule tables of the risk assessor and of the
    recommendation synthesizer). *)
Record Config := {
  criterion : CriterionId -> Criterion;
  goal : Group -> GoalSpec;
  groupWeight : Group -> Q;
  riskFactor : CriterionId -> string;
  mitigationRule : CriterionId -> string;
  criterionRule : CriterionId -> Level -> option string;
  tierRule : Tier -> option string;
  affirmative : string }.

(** Modelled from the spec: a measured value as the ingestion hands it
    over, finite or not. *)
Inductive Numeric :=
| NotANumber
| Infinity (negative : bool)
| Finite (q : Q).

(** Modelled from the spec: RawMeasurement, criterion identifier, numeric
    value (possibly absent) and unit tag. *)
Record RawMeasurement := {
  rm_criterion : CriterionId;
  rm_value : option Numeric;
  rm_unit : string }.

(** Modelled from the spec: CriterionScore, identifier, score and level. *)
Record CriterionScore := {
  cs_id : CriterionId;
  cs_score : Q;
  cs_level : Level }.

(** Modelled from the spec: the error taxonomy of section 7. *)
Inductive Failure :=
| InvalidMeasurement (c : CriterionId)
| ConfigurationError.

(** The outcome of a fallible engine step. *)
Inductive Result (A : Type) :=
| Ok (a : A)
| Err (e : Failure).
Arguments Ok {A} a.
Arguments Err {A} e.

Definition bind {A B} (r : Result A) (k : A -> Result B) : Result B :=
  match r with
  | Ok a => k a
  | Err e => Err e
  end.

Fixpoint mapM {A B} (f : A -> Result B) (l : list A) : Result (list B) :=
  match l with
  | [] => Ok []
  | x :: xs =>
      bind (f x) (fun y => bind (mapM f xs) (fun ys => Ok (y :: ys)))
  end.

(** Modelled from the spec: the Score Classifier of section 4.4. *)
Definition classify (score : Q) : Level :=
  if Qle_bool 90 score then Excellent
  else if Qle_bool 75 score then Good
  else if Qle_bool 60 score then Fair
  else if Qle_bool 45 score then Poor
  else VeryPoor.

(** Modelled from the spec: saturation to [0,100]. *)
Definition clamp (x : Q) : Q := Qmin 100 (Qmax 0 x).

(** Modelled from the spec: a value is valid for a criterion when it is
    present, finite and inside the declared physical domain. *)
Definition validValue (c : Criterion) (raw : option Numeric) : bool :=
  match raw with
  | Some (Finite v) => Qle_bool (domainLo c) v && Qle_bool v (domainHi c)
  | _ => false
  end.

(** Modelled from the spec: the Criterion Normalizer of section 4.1. *)
Definition normalize (cfg : Config) (id : CriterionId)
                     (raw : option Numeric) : Result CriterionScore :=
  let c := criterion cfg id in
  match raw with
  | Some (Finite v) =>
      if Qle_bool (domainLo c) v && Qle_bool v (domainHi c)
      then let s := clamp (curve c v) in
           Ok {| cs_id := id; cs_score := s; cs_level := classify s |}
      else Err (InvalidMeasurement id)
  | _ => Err (InvalidMeasurement id)
  end.

(** Modelled from the spec: the normalizer applied to one entry of a
    measurement set; every entry of the set is validated. *)
Definition normalizeEntry (cfg : Config) (m : RawMeasurement)
  : Result CriterionScore :=
  normalize cfg (rm_criterion m) (rm_value m).

(** Modelled from the spec: the score of a criterion among the normalized
    entries; a criterion that no entry measures is a missing
    measurement. *)
Definition scoreFor (normalized : list CriterionScore) (id : CriterionId)
  : Result CriterionScore :=
  match find (fun cs => criterionEqb (cs_id cs) id) normalized with
  | Some cs => Ok cs
  | None => Err (InvalidMeasurement id)
  end.

(** Modelled from the spec: what an entry and the score it normalizes to
    have in common. *)
Definition scoredFrom (cfg : Config) (m : RawMeasurement)
           (cs : CriterionScore) : Prop :=
  cs_id cs = rm_criterion m /\
  exists v,
    rm_value m = Some (Finite v) /\
    cs_score cs = clamp (curve (criterion cfg (rm_criterion m)) v).

(** Modelled from the spec: a score derived from a valid entry that the
    measurement set holds for its criterion. *)
Definition derived (cfg : Config) (ms : list RawMeasurement)
           (cs : CriterionScore) : Prop :=
  exists m v,
    In m ms /\
    rm_criterion m = cs_id cs /\
    rm_value m = Some (Finite v) /\
    validValue (criterion cfg (cs_id cs)) (rm_value m) = true /\
    cs_score cs = clamp (curve (criterion cfg (cs_id cs)) v).

(** Modelled from the spec: the Goal-Programming Aggregator of
    section 4.3. *)
Definition groupScore (cfg : Config) (g : Group)
                      (scores : list CriterionScore) : Q :=
  fold_right
    (fun cs acc =>
       let c := criterion cfg (cs_id cs) in
       if groupEqb (group c) g then weight c * cs_score cs + acc else acc)
    0 scores.

(** Modelled from the spec: the negative deviation
    [max(0, target - groupScore)] of a group from its goal. *)
Definition deviation (gl : GoalSpec) (gs : Q) : Q := Qmax 0 (target gl - gs).

(** Modelled from the spec: the penalty [priority * deviation]. *)
Definition penalty (gl : GoalSpec) (gs : Q) : Q :=
  priority gl * deviation gl gs.

(** Modelled from the spec: the sum of the weighted penalties. *)
Definition penaltyTerm (goals : Group -> GoalSpec) (gs : Group -> Q) : Q :=
  penalty (goals economic) (gs economic)
  + penalty (goals natural_technical) (gs natural_technical).

(** Modelled from the spec: the weighted sum of the group scores minus the
    penalty term, clamped to [0,100]. *)
Definition compositeOf (cfg : Config) (gs : Group -> Q) : Q :=
  clamp (groupWeight cfg economic * gs economic
         + groupWeight cfg natural_technical * gs natural_technical
         - penaltyTerm (goal cfg) gs).

(** Modelled from the spec: the result of [aggregate]. *)
Record Aggregate := {
  groupScores : Group -> Q;
  compositeScore : Q }.

(** Modelled from the spec: [aggregate] of section 4.3. *)
Definition aggregate (cfg : Config) (scores : list CriterionScore)
  : Aggregate :=
  let gs := fun g => groupScore cfg g scores in
  {| groupScores := gs; compositeScore := compositeOf cfg gs |}.

(** Modelled from the spec: the decision tier of the composite level. *)
Definition tierOf (l : Level) : Tier :=
  match l with
  | Excellent => StronglyRecommended
  | Good => Recommended
  | Fair => WorthConsidering
  | Poor => NotRecommended
  | VeryPoor => StronglyNotRecommended
  end.

(** Modelled from the spec: the risk levels and the risk assessment. *)
Inductive RiskLevel := Low | Medium | High.

(** Modelled from the spec: level, risk factors and mitigation list. *)
Record RiskAssessment := {
  risk_level : RiskLevel;
  risks : list string;
  mitigation_measures : list string }.

(** Modelled from the spec: a criterion below the Fair threshold
    (score < 60). *)
Definition belowFair (cs : CriterionScore) : bool :=
  negb (Qle_bool 60 (cs_score cs)).

(** Modelled from the spec: the sub-threshold criteria, in order. *)
Definition subThreshold (scores : list CriterionScore)
  : list CriterionScore :=
  filter belowFair scores.

(** Modelled from the spec: a criterion whose score classifies as
    VeryPoor. *)
Definition inVeryPoor (cs : CriterionScore) : bool :=
  match classify (cs_score cs) with
  | VeryPoor => true
  | _ => false
  end.

(** Modelled from the spec: the risk level of section 4.5, from the count
    and the severity of the sub-threshold criteria. *)
Definition riskLevelOf (scores : list CriterionScore) : RiskLevel :=
  let n := List.length (subThreshold scores) in
  if ((2 <=? n)%nat || existsb inVeryPoor scores)%bool then High
  else if (n =? 1)%nat then Medium
  else Low.

(** Modelled from the spec: the Risk Assessor [assessRisk] of
    section 4.5. *)
Definition assessRisk (cfg : Config) (scores : list CriterionScore)
                      (compositeScore : Q) : RiskAssessment :=
  let sub := subThreshold scores in
  let lvl := riskLevelOf scores in
  {| risk_level := lvl;
     risks := map (fun cs => riskFactor cfg (cs_id cs)) sub;
     mitigation_measures :=
       match lvl with
       | Low => []
       | _ => map (fun cs => mitigationRule cfg (cs_id cs)) sub
       end |}.

(** Modelled from the spec: the fixed priority order of the rules of
    section 4.6. *)
Definition priorityOrder : list CriterionId :=
  [environmental_impact; economic_feasibility; land_suitability;
   energy_resources; grid_capacity].

(** Modelled from the spec: the recommendation a criterion rule
    contributes for the level of its criterion. *)
Definition advice (cfg : Config) (scores : list CriterionScore)
                  (id : CriterionId) : list string :=
  match find (fun cs => criterionEqb (cs_id cs) id) scores with
  | Some cs =>
      match criterionRule cfg id (classify (cs_score cs)) with
      | Some s => [s]
      | None => []
      end
  | None => []
  end.

(** Modelled from the spec: suppression of duplicate recommendations,
    the first occurrence kept. *)
Fixpoint dedup (seen l : list string) : list string :=
  match l with
  | [] => []
  | x :: xs =>
      if existsb (String.eqb x) seen then dedup seen xs
      else x :: dedup (x :: seen) xs
  end.

(** Modelled from the spec: the Recommendation Synthesizer [synthesize]
    of section 4.6; the sequence is never empty. *)
Definition synthesize (cfg : Config) (scores : list CriterionScore)
                      (t : Tier) : list string :=
  let fired :=
    (flat_map (advice cfg scores) priorityOrder
     ++ match tierRule cfg t with Some s => [s] | None => [] end)%list in
  match dedup [] fired with
  | [] => [affirmative cfg]
  | rs => rs
  end.

(** Modelled from the spec: the DecisionResult of the data model. *)
Record DecisionResult := {
  overall_score : Q * Level;
  detailed_scores : list CriterionScore;
  decision_level : Tier;
  risk_assessment : RiskAssessment;
  recommendations : list string;
  analysis_date : string }.

(** Modelled from the spec: the full single-site pipeline; [now] is the
    reading of the clock that stamps the result. *)
Definition analyze (cfg : Config) (now : string)
                   (ms : list RawMeasurement) : Result DecisionResult :=
  bind (mapM (normalizeEntry cfg) ms)
    (fun normalized =>
       bind (mapM (scoreFor normalized) allCriteria)
         (fun scores =>
            let agg := aggregate cfg scores in
            let lvl := classify (compositeScore agg) in
            Ok {| overall_score := (compositeScore agg, lvl);
                  detailed_scores := scores;
                  decision_level := tierOf lvl;
                  risk_assessment :=
                    assessRisk cfg scores (compositeScore agg);
                  recommendations := synthesize cfg scores (tierOf lvl);
                  analysis_date := now |})).

(** Modelled from the spec: the wire labels of the risk levels. *)
Definition riskLabel (l : RiskLevel) : string :=
  match l with
  | Low => "低"
  | Medium => "中"
  | High => "高"
  end.

(** Modelled from the spec: the wire shape of [risk_assessment]. *)
Definition riskPayload (r : RiskAssessment) : Payload.RiskAssessment :=
  {| Payload.risk_level := Some (riskLabel (risk_level r));
     Payload.risks := Some (risks r);
     Payload.mitigation_measures := Some (mitigation_measures r) |}.

End Engine.

(** ** The end-to-end scenarios of the specification, as fixtures

    Five criteria of weight 0.2 each, a linear curve on the domain
    [0,200], both goals met by scenario A. *)

Module Scenario.

Import Engine.
Local Open Scope Q_scope.

Definition groupOf (id : CriterionId) : Group :=
  match id with
  | economic_feasibility => economic
  | _ => natural_technical
  end.

Definition config : Config :=
  {| criterion := fun id =>
       {| direction := benefit;
          weight := 2 # 10;
          group := groupOf id;
          domainLo := 0;
          domainHi := 200;
          curve := fun v => v |};
     goal := fun g =>
       match g with
       | economic => {| target := 10; priority := 1 |}
       | natural_technical => {| target := 50; priority := 1 |}
       end;
     groupWeight := fun _ => 1;
     riskFactor := fun id =>
       match id with
       | land_suitability => "land suitability limited"
       | energy_resources => "energy resources scarce"
       | grid_capacity => "grid capacity constrained"
       | economic_feasibility => "economic feasibility weak"
       | environmental_impact => "environmental impact high"
       end;
     mitigationRule := fun id =>
       match id with
       | land_suitability => "survey alternative parcels"
       | energy_resources => "contract external renewable supply"
       | grid_capacity => "reinforce the grid connection"
       | economic_feasibility => "seek investment incentives"
       | environmental_impact => "add environmental protection measures"
       end;
     criterionRule := fun id l =>
       match id, l with
       | grid_capacity, (Poor | VeryPoor) => Some "plan a grid upgrade"
       | _, _ => None
       end;
     tierRule := fun t =>
       match t with
       | StronglyRecommended | Recommended =>
           Some "proceed to detailed design"
       | _ => None
       end;
     affirmative := "site is suitable" |}.

Definition measure (id : CriterionId) (v : Q) : RawMeasurement :=
  {| rm_criterion := id; rm_value := Some (Finite v); rm_unit := "pt" |}.

(** Scenario A: land 80, energy 70, grid 75, economic 70,
    environment 80. *)
Definition measurementsA : list RawMeasurement :=
  [measure land_suitability 80; measure energy_resources 70;
   measure grid_capacity 75; measure economic_feasibility 70;
   measure environmental_impact 80].

(** Scenario B: the same with grid 40. *)
Definition measurementsB : list RawMeasurement :=
  [measure land_suitability 80; measure energy_resources 70;
   measure grid_capacity 40; measure economic_feasibility 70;
   measure environmental_impact 80].

(** Scenario A with the grid measurement left out. *)
Definition measurementsNoGrid : list RawMeasurement :=
  [measure land_suitability 80; measure energy_resources 70;
   measure economic_feasibility 70; measure environmental_impact 80].

Definition scoreOf (id : CriterionId) (v : Q) : CriterionScore :=
  {| cs_id := id; cs_score := v; cs_level := classify v |}.

(** A grid entry that is not a number. *)
Definition gridNaN : RawMeasurement :=
  {| rm_criterion := grid_capacity;
     rm_value := Some NotANumber;
     rm_unit := "pt" |}.

(** Scenario A followed by a second, invalid grid entry. *)
Definition measurementsTrailingNaN : list RawMeasurement :=
  (measurementsA ++ [gridNaN])%list.

(** A stand-in for the host's [parseFloat], exact on the three strings
    the examples use. *)
Definition parseFloatSample (s : string) : JS.number :=
  if String.eqb s "39.9042" then JS.ofDecimal 399042 10000
  else if String.eqb s "116.4074" then JS.ofDecimal 1164074 10000
  else if String.eqb s "95" then JS.ofZ 95
  else JS.NaN.

End Scenario.

(** ** The city table shared by the three variants of [App] *)

Record City := { name : string; lat : JS.number; lng : JS.number }.

Definition cities : list City :=
  Eval vm_compute in
  [ {| name := "北京"; lat := JS.ofDecimal 399042 10000;
       lng := JS.ofDecimal 1164074 10000 |};
    {| name := "上海"; lat := JS.ofDecimal 312304 10000;
       lng := JS.ofDecimal 1214737 10000 |};
    {| name := "深圳"; lat := JS.ofDecimal 225431 10000;
       lng := JS.ofDecimal 1140579 10000 |};
    {| name := "杭州"; lat := JS.ofDecimal 302741 10000;
       lng := JS.ofDecimal 1201551 10000 |};
    {| name := "中卫"; lat := JS.ofDecimal 375149 10000;
       lng := JS.ofDecimal 1051967 10000 |};
    {| name := "贵阳"; lat := JS.ofDecimal 266470 10000;
       lng := JS.ofDecimal 1066302 10000 |};
    {| name := "广州"; lat := JS.ofDecimal 231291 10000;
       lng := JS.ofDecimal 1132644 10000 |};
    {| name := "兰州"; lat := JS.ofDecimal 360611 10000;
       lng := JS.ofDecimal 1038343 10000 |} ].

Definition n1000 : JS.number := Eval cbv in JS.ofZ 1000.

(** ** [App], the variant with the menu and the map *)

Module AppShell.

Record Request := {
  url : string;
  latitude : JS.number;
  longitude : JS.number;
  radius : JS.number;
  city_name : string }.

(** What the awaited [fetch] and [response.json()] come to. *)
Inductive Body :=
| Unparsable
| Parsed (data : option Payload.AnalysisData).

Inductive Outcome :=
| Rejected
| Response (ok : bool) (body : Body).

Inductive Event :=
| SetSelectedLocation (lat lng : JS.number)
| SetSelectedCity (cityName : string)
| SetLoading (b : bool)
| SetAnalysisData (data : option Payload.AnalysisData)
| Fetch (req : Request)
| MessageWarning (text : string)
| MessageSuccess (text : string)
| MessageError (text : string)
| ConsoleError (text : string).

Record State := {
  selectedMenu : string;
  analysisData : option Payload.AnalysisData;
  loading : bool;
  selectedLocation : option (JS.number * JS.number);
  selectedCity : string }.

Definition initial : State :=
  {| selectedMenu := "map";
     analysisData := None;
     loading := false;
     selectedLocation := None;
     selectedCity := "" |}.

(** The state setters, and the events that leave the state alone. *)
Definition apply (st : State) (e : Event) : State :=
  match e with
  | SetSelectedLocation la lo =>
      {| selectedMenu := selectedMenu st;
         analysisData := analysisData st;
         loading := loading st;
         selectedLocation := Some (la, lo);
         selectedCity := selectedCity st |}
  | SetSelectedCity c =>
      {| selectedMenu := selectedMenu st;
         analysisData := analysisData st;
         loading := loading st;
         selectedLocation := selectedLocation st;
         selectedCity := c |}
  | SetLoading b =>
      {| selectedMenu := selectedMenu st;
         analysisData := analysisData st;
         loading := b;
         selectedLocation := selectedLocation st;
         selectedCity := selectedCity st |}
  | SetAnalysisData d =>
      {| selectedMenu := selectedMenu st;
         analysisData := d;
         loading := loading st;
         selectedLocation := selectedLocation st;
         selectedCity := selectedCity st |}
  | _ => st
  end.

Definition run (st : State) (events : list Event) : State :=
  fold_left apply events st.

Definition handleLocationSelect (lat lng : JS.number) : list Event :=
  [SetSelectedLocation lat lng].

Definition handleCitySelect (cityName : string) : list Event :=
  match find (fun c => String.eqb (name c) cityName) cities with
  | Some city =>
      [SetSelectedLocation (lat city) (lng city); SetSelectedCity cityName]
  | None => []
  end.

Section HandleAnalyze.

(** The server, as seen through [fetch]. *)
Variable respond : Request -> Outcome.

Definition handleAnalyze (st : State) : list Event :=
  match selectedLocation st with
  | None => [MessageWarning "请先选择位置"]
  | Some (la, lo) =>
      let req := {| url := "/analyze/location";
                    latitude := la;
                    longitude := lo;
                    radius := n1000;
                    city_name := selectedCity st |} in
      ([SetLoading true; Fetch req]
       ++ match respond req with
          | Response true (Parsed data) =>
              [SetAnalysisData data; MessageSuccess "分析完成！"]
          | _ =>
              [MessageError "分析失败，请重试"; ConsoleError "Analysis error:"]
          end
       ++ [SetLoading false])%list
  end.

End HandleAnalyze.

(** The toasts among the events. *)
Definition isMessage (e : Event) : bool :=
  match e with
  | MessageWarning _ | MessageSuccess _ | MessageError _ => true
  | _ => false
  end.

Definition isFetch (e : Event) : bool :=
  match e with
  | Fetch _ => true
  | _ => false
  end.

End AppShell.

(** ** [App], the variant with the custom-coordinate form *)

Module AppForm.

Record Request := {
  url : string;
  latitude : JS.number;
  longitude : JS.number;
  radius : JS.number }.

Inductive Body :=
| Unparsable
| Parsed (data : option Payload.AnalysisData).

Inductive Outcome :=
| Rejected
| Response (ok : bool) (body : Body).

Inductive Event :=
| SetSelectedLocation (lat lng : JS.number)
| SetLoading (b : bool)
| SetAnalysisData (data : option Payload.AnalysisData)
| Fetch (req : Request)
| AlertBox (text : string)
| ConsoleError (text : string).

Section Handlers.

Variable respond : Request -> Outcome.

(** [handleAnalyze(lat, lng, radius = 1000)]; an omitted radius is
    [None]. *)
Definition handleAnalyze (lat lng : JS.number) (radius : option JS.number)
  : list Event :=
  let req := {| url := "http://localhost:8000/analyze/location";
                latitude := lat;
                longitude := lng;
                radius := match radius with Some r => r | None => n1000 end |}
  in
  ([SetLoading true; Fetch req]
   ++ match respond req with
      | Response true (Parsed data) =>
          [SetAnalysisData data; AlertBox "分析完成！"]
      | _ => [AlertBox "分析失败，请重试"; ConsoleError "Analysis error:"]
      end
   ++ [SetLoading false])%list.

(** What the effects of the custom button come to. *)
Definition perform (e : App.Effect) : list Event :=
  match e with
  | App.HandleAnalyze la lo r => handleAnalyze la lo (Some r)
  | App.Alert msg => [AlertBox msg]
  end.

Variable parseFloat : string -> JS.number.

(** A click on the custom button. *)
Definition customButton (customLat customLng : string)
                        (customRadius : JS.number) : list Event :=
  flat_map perform (App.onClick parseFloat customLat customLng customRadius).

(** A click on a city button. *)
Definition cityButton (city : City) : list Event :=
  SetSelectedLocation (lat city) (lng city)
  :: handleAnalyze (lat city) (lng city) None.

End Handlers.

Definition isAlert (e : Event) : bool :=
  match e with
  | AlertBox _ => true
  | _ => false
  end.

Definition requests (events : list Event) : list Request :=
  flat_map (fun e => match e with Fetch r => [r] | _ => [] end) events.

(** The [loading] flag after a run of events. *)
Definition loadingAfter (loading : bool) (events : list Event) : bool :=
  fold_left (fun l e => match e with SetLoading b => b | _ => l end)
            events loading.

End AppForm.

(** ** [MapComponent] *)

Module MapComponent.

Record MapView := {
  mapCenter : JS.number * JS.number;
  mapZoom : JS.number }.

Definition n10 : JS.number := Eval cbv in JS.ofZ 10.
Definition n15 : JS.number := Eval cbv in JS.ofZ 15.

(** The initial view: Beijing at zoom 10. *)
Definition initial : MapView :=
  Eval vm_compute in
  {| mapCenter := (JS.ofDecimal 399042 10000, JS.ofDecimal 1164074 10000);
     mapZoom := n10 |}.

(** The effect run when [selectedLocation] changes. *)
Definition onSelectedLocation (v : MapView)
           (selectedLocation : option (JS.number * JS.number)) : MapView :=
  match selectedLocation with
  | Some (la, lo) => {| mapCenter := (la, lo); mapZoom := n15 |}
  | None => v
  end.

(** The view after a succession of values of the [selectedLocation]
    prop. *)
Definition viewAfter (props : list (option (JS.number * JS.number)))
  : MapView :=
  fold_left onSelectedLocation props initial.

(** The last location given by a succession of props, if any. *)
Fixpoint lastSelected (props : list (option (JS.number * JS.number)))
  : option (JS.number * JS.number) :=
  match props with
  | [] => None
  | p :: rest =>
      match lastSelected rest with
      | Some l => Some l
      | None => p
      end
  end.

End MapComponent.

(** ** [EnergyAssessment] *)

Module EnergyAssessment.

Definition COLORS : list string :=
  ["#0088FE"; "#00C49F"; "#FFBB28"; "#FF8042"; "#8884D8"].

(** [COLORS[index % COLORS.length]], [None] standing for [undefined]. *)
Definition cellFill (index : nat) : option string :=
  nth_error COLORS (index mod List.length COLORS).

End EnergyAssessment.

(** * Properties *)

(** ** Comparison of doubles *)

Section Compare.

Lemma SFcompare_antisym (x y : spec_float) :
  SFcompare y x = option_map CompOpp (SFcompare x y).
Proof.
  destruct x as [sx|sx| |sx mx ex], y as [sy|sy| |sy my ey]; simpl;
    try (destruct sx); try (destruct sy); try reflexivity;
    rewrite (Z.compare_antisym ex ey);
    destruct (ex ?= ey)%Z; simpl; try reflexivity;
    change (Pos.compare_cont Eq my mx) with (Pos.compare my mx);
    change (Pos.compare_cont Eq mx my) with (Pos.compare mx my);
    rewrite (Pos.compare_antisym mx my);
    destruct (mx ?= my)%positive; reflexivity.
Qed.

Lemma lt_not_ge (x t : JS.number) :
  JS.lt x t = true -> JS.ge x t = false.
Proof.
  unfold JS.lt, JS.ge, SFltb, SFleb.
  rewrite (SFcompare_antisym x t).
  destruct (SFcompare x t) as [[ | | ]|]; simpl; congruence.
Qed.

Ltac cmp_cases :=
  repeat match goal with
    | H : context [(?a ?= ?b)%Z] |- _ =>
        destruct (Z.compare_spec a b); try discriminate H
    | |- context [(?a ?= ?b)%Z] =>
        destruct (Z.compare_spec a b)
    | H : context [Pos.compare_cont Eq ?a ?b] |- _ =>
        change (Pos.compare_cont Eq a b) with (Pos.compare a b) in H;
        destruct (Pos.compare_spec a b); try discriminate H
    | |- context [Pos.compare_cont Eq ?a ?b] =>
        change (Pos.compare_cont Eq a b) with (Pos.compare a b);
        destruct (Pos.compare_spec a b)
    end.

Lemma SFleb_trans (x y z : spec_float) :
  SFleb x y = true -> SFleb y z = true -> SFleb x z = true.
Proof.
  unfold SFleb.
  destruct x as [sx|sx| |sx mx ex], y as [sy|sy| |sy my ey],
           z as [sz|sz| |sz mz ez]; simpl;
    try (destruct sx); try (destruct sy); try (destruct sz);
    simpl; intros Hxy Hyz; try discriminate; try reflexivity;
    cmp_cases; simpl in *; try discriminate; try reflexivity;
    subst; try lia.
Qed.

End Compare.

(** The literals of the source are binary64 values, and the decimal
    literals of the boundary tests round to the doubles below them. *)
Example literals_valid :
  forallb (valid_binary JS.prec JS.emax)
          [n0; n45; n60; n75; n90; n180;
           JS.ofDecimal 89999 1000; JS.ofDecimal 44999 1000] = true
  /\ JS.ofDecimal 89999 1000 = S754_finite false 6333116607245582 (-46)
  /\ JS.ofDecimal 44999 1000 = S754_finite false 6333046238501405 (-47).
Proof. repeat split. Qed.

(** ** The classifiers of the components *)

Lemma levelLabel_inj (a b : Level) : levelLabel a = levelLabel b -> a = b.
Proof. destruct a, b; simpl; intros H; try reflexivity; discriminate H. Qed.

Lemma levelOfLabel_label (l : Level) : levelOfLabel (levelLabel l) = Some l.
Proof. destruct l; reflexivity. Qed.

(** A score that reaches a threshold is carried over it by any larger
    score. *)
Lemma ge_mono (t x y : JS.number) :
  (x <= y)%js = true -> (x >= t)%js = true -> (y >= t)%js = true.
Proof.
  unfold JS.le, JS.ge. intros Hxy Htx. exact (SFleb_trans t x y Htx Hxy).
Qed.

(** The level a score is given, read off the guards that hold for it. *)
Lemma getScoreLevel_cases (score : JS.number) :
  DecisionAnalysis.getScoreLevel score =
  levelLabel
    (if (score >= n90)%js then Excellent
     else if (score >= n75)%js then Good
     else if (score >= n60)%js then Fair
     else if (score >= n45)%js then Poor
     else VeryPoor).
Proof.
  unfold DecisionAnalysis.getScoreLevel.
  destruct (score >= n90)%js; [reflexivity|].
  destruct (score >= n75)%js; [reflexivity|].
  destruct (score >= n60)%js; [reflexivity|].
  destruct (score >= n45)%js; reflexivity.
Qed.

(** The thresholds are increasing: reaching one reaches all lower ones. *)
Lemma ge_n90_n75 (s : JS.number) : (s >= n90)%js = true -> (s >= n75)%js = true.
Proof. unfold JS.ge. apply SFleb_trans. reflexivity. Qed.

Lemma ge_n75_n60 (s : JS.number) : (s >= n75)%js = true -> (s >= n60)%js = true.
Proof. unfold JS.ge. apply SFleb_trans. reflexivity. Qed.

Lemma ge_n60_n45 (s : JS.number) : (s >= n60)%js = true -> (s >= n45)%js = true.
Proof. unfold JS.ge. apply SFleb_trans. reflexivity. Qed.

(** C1. For every numeric score, each of the two component classifiers
    assigns the level by the fixed thresholds, a boundary value belonging
    to the higher tier: score >= 90 gives Excellent, 75 <= score < 90 Good,
    60 <= score < 75 Fair, 45 <= score < 60 Poor and score < 45 VeryPoor;
    90, 75, 60 and 45 give Excellent, Good, Fair and Poor, 89.999 gives
    Good and 44.999 gives VeryPoor. *)
Theorem getScoreLevel_thresholds
  (getScoreLevel : JS.number -> string) (score : JS.number)
  (Hf : In getScoreLevel
          [AnalysisResults.getScoreLevel; DecisionAnalysis.getScoreLevel]) :
  ((score >= n90)%js = true -> getScoreLevel score = levelLabel Excellent) /\
  ((score >= n75)%js = true -> (score < n90)%js = true ->
   getScoreLevel score = levelLabel Good) /\
  ((score >= n60)%js = true -> (score < n75)%js = true ->
   getScoreLevel score = levelLabel Fair) /\
  ((score >= n45)%js = true -> (score < n60)%js = true ->
   getScoreLevel score = levelLabel Poor) /\
  ((score < n45)%js = true -> getScoreLevel score = levelLabel VeryPoor) /\
  getScoreLevel (JS.ofZ 90) = levelLabel Excellent /\
  getScoreLevel (JS.ofZ 75) = levelLabel Good /\
  getScoreLevel (JS.ofZ 60) = levelLabel Fair /\
  getScoreLevel (JS.ofZ 45) = levelLabel Poor /\
  getScoreLevel (JS.ofDecimal 89999 1000) = levelLabel Good /\
  getScoreLevel (JS.ofDecimal 44999 1000) = levelLabel VeryPoor.
Proof.
  assert (E : getScoreLevel = DecisionAnalysis.getScoreLevel).
  { destruct Hf as [<-|[<-|[]]]; reflexivity. }
  subst getScoreLevel. rewrite getScoreLevel_cases.
  repeat split; try reflexivity.
  - intros ->. reflexivity.
  - intros H75 H90. rewrite (lt_not_ge _ _ H90), H75. reflexivity.
  - intros H60 H75. pose proof (lt_not_ge _ _ H75) as N75.
    destruct (score >= n90)%js eqn:E90.
    + rewrite (ge_n90_n75 _ E90) in N75. discriminate.
    + rewrite N75, H60. reflexivity.
  - intros H45 H60. pose proof (lt_not_ge _ _ H60) as N60.
    destruct (score >= n90)%js eqn:E90.
    { rewrite (ge_n75_n60 _ (ge_n90_n75 _ E90)) in N60. discriminate. }
    destruct (score >= n75)%js eqn:E75.
    { rewrite (ge_n75_n60 _ E75) in N60. discriminate. }
    rewrite N60, H45. reflexivity.
  - intros H45. pose proof (lt_not_ge _ _ H45) as N45.
    destruct (score >= n90)%js eqn:E90.
    { rewrite (ge_n60_n45 _ (ge_n75_n60 _ (ge_n90_n75 _ E90))) in N45.
      discriminate. }
    destruct (score >= n75)%js eqn:E75.
    { rewrite (ge_n60_n45 _ (ge_n75_n60 _ E75)) in N45. discriminate. }
    destruct (score >= n60)%js eqn:E60.
    { rewrite (ge_n60_n45 _ E60) in N45. discriminate. }
    rewrite N45. reflexivity.
Qed.

Lemma getScoreLevel_thresholds_witness :
  AnalysisResults.getScoreLevel (JS.ofDecimal 825 10) = levelLabel Good.
Proof.
  refine (proj1 (proj2 (getScoreLevel_thresholds
                          AnalysisResults.getScoreLevel
                          (JS.ofDecimal 825 10) _)) _ _).
  - simpl. left. reflexivity.
  - reflexivity.
  - reflexivity.
Defined.

(** C8. The classifier is total and ordinally monotone: every score is
    given exactly one of the five levels, and x <= y implies that the level
    of x is at most the level of y in the order
    VeryPoor < Poor < Fair < Good < Excellent. *)
Theorem getScoreLevel_total_monotone (x y : JS.number) :
  (exists! l, DecisionAnalysis.getScoreLevel x = levelLabel l) /\
  ((x <= y)%js = true ->
   exists lx ly,
     levelOfLabel (DecisionAnalysis.getScoreLevel x) = Some lx /\
     levelOfLabel (DecisionAnalysis.getScoreLevel y) = Some ly /\
     levelLe lx ly).
Proof.
  split.
  - rewrite getScoreLevel_cases. eexists. split; [reflexivity|].
    intros l' H. apply levelLabel_inj. exact H.
  - intros Hxy. rewrite !getScoreLevel_cases, !levelOfLabel_label.
    do 2 eexists. split; [reflexivity|]. split; [reflexivity|].
    pose proof (ge_mono n90 x y Hxy) as M90.
    pose proof (ge_mono n75 x y Hxy) as M75.
    pose proof (ge_mono n60 x y Hxy) as M60.
    pose proof (ge_mono n45 x y Hxy) as M45.
    unfold levelLe.
    destruct (x >= n90)%js.
    { rewrite (M90 eq_refl). simpl. lia. }
    destruct (x >= n75)%js.
    { rewrite (M75 eq_refl). destruct (y >= n90)%js; simpl; lia. }
    destruct (x >= n60)%js.
    { rewrite (M60 eq_refl).
      destruct (y >= n90)%js, (y >= n75)%js; simpl; lia. }
    destruct (x >= n45)%js.
    { rewrite (M45 eq_refl).
      destruct (y >= n90)%js, (y >= n75)%js, (y >= n60)%js; simpl; lia. }
    destruct (y >= n90)%js, (y >= n75)%js, (y >= n60)%js, (y >= n45)%js;
      simpl; lia.
Qed.

Lemma getScoreLevel_total_monotone_witness :
  exists lx ly,
    levelOfLabel (DecisionAnalysis.getScoreLevel (JS.ofZ 50)) = Some lx /\
    levelOfLabel (DecisionAnalysis.getScoreLevel (JS.ofDecimal 755 10))
    = Some ly /\
    levelLe lx ly.
Proof.
  apply (proj2 (getScoreLevel_total_monotone
                  (JS.ofZ 50) (JS.ofDecimal 755 10))).
  reflexivity.
Defined.

(** C9. The two independently defined classifiers agree everywhere: the
    same level label and the same colour for every score. *)
Theorem classifiers_agree (score : JS.number) :
  AnalysisResults.getScoreLevel score = DecisionAnalysis.getScoreLevel score /\
  AnalysisResults.getScoreColor score = DecisionAnalysis.getScoreColor score.
Proof.
  unfold AnalysisResults.getScoreLevel, DecisionAnalysis.getScoreLevel,
         AnalysisResults.getScoreColor, DecisionAnalysis.getScoreColor.
  destruct (score >= n90)%js, (score >= n75)%js, (score >= n60)%js,
           (score >= n45)%js; split; reflexivity.
Qed.

(** ** The custom-coordinate handler *)

(** C10. The handler issues the analysis request only when both
    coordinates are provided, the parsed latitude lies in [-90, 90] and
    the parsed longitude in [-180, 180]; for a missing or out-of-range
    coordinate it raises one alert and issues no request. *)
Theorem onClick_guard
  (parseFloat : string -> JS.number)
  (customLat customLng : string) (customRadius : JS.number) :
  let lat := parseFloat customLat in
  let lng := parseFloat customLng in
  let provided := customLat <> "" /\ customLng <> "" in
  let inRange :=
    (lat >= - n90)%js = true /\ (lat <= n90)%js = true /\
    (lng >= - n180)%js = true /\ (lng <= n180)%js = true in
  let effects := App.onClick parseFloat customLat customLng customRadius in
  (provided /\ inRange -> effects = [App.HandleAnalyze lat lng customRadius])
  /\ (~ (provided /\ inRange) ->
      (exists msg, effects = [App.Alert msg]) /\
      forall a b r, ~ In (App.HandleAnalyze a b r) effects)
  /\ (forall a b r, In (App.HandleAnalyze a b r) effects ->
      provided /\ inRange).
Proof.
  intros lat lng provided inRange effects.
  assert (T : forall s, JS.truthyStr s = true <-> s <> "").
  { intros [|c s]; simpl; split; intros H; congruence. }
  assert (D : {provided /\ inRange} + {~ (provided /\ inRange)}).
  { unfold provided, inRange.
    destruct customLat, customLng;
      try (right; intros [[? ?] _]; congruence).
    destruct (lat >= - n90)%js, (lat <= n90)%js,
             (lng >= - n180)%js, (lng <= n180)%js;
      try (right; intros [_ (? & ? & ? & ?)]; discriminate).
    left. repeat split; discriminate. }
  assert (Y : provided /\ inRange ->
              effects = [App.HandleAnalyze lat lng customRadius]).
  { intros [[P1 P2] (R1 & R2 & R3 & R4)]. unfold effects, App.onClick.
    apply T in P1. apply T in P2. rewrite P1, P2. cbn [andb].
    fold lat lng. rewrite R1, R2, R3, R4. reflexivity. }
  assert (N : ~ (provided /\ inRange) -> exists msg, effects = [App.Alert msg]).
  { intros NP. unfold effects, App.onClick.
    destruct (JS.truthyStr customLat) eqn:E1; cbn [andb]; [|eauto].
    destruct (JS.truthyStr customLng) eqn:E2; cbn [andb]; [|eauto].
    fold lat lng.
    destruct (lat >= - n90)%js eqn:R1; cbn [andb]; [|eauto].
    destruct (lat <= n90)%js eqn:R2; cbn [andb]; [|eauto].
    destruct (lng >= - n180)%js eqn:R3; cbn [andb]; [|eauto].
    destruct (lng <= n180)%js eqn:R4; cbn [andb]; [|eauto].
    exfalso. apply NP. unfold provided, inRange.
    rewrite <- !T. repeat split; assumption. }
  split; [exact Y|]. split.
  - intros NP. split; [exact (N NP)|].
    destruct (N NP) as [msg ->]. intros a b r [H|[]]. discriminate H.
  - intros a b r Hin. destruct D as [P|NP]; [exact P|].
    destruct (N NP) as [msg E]. rewrite E in Hin.
    destruct Hin as [H|[]]. discriminate H.
Qed.

Lemma onClick_guard_witness :
  App.onClick Scenario.parseFloatSample "39.9042" "116.4074" (JS.ofZ 1000)
  = [App.HandleAnalyze (Scenario.parseFloatSample "39.9042")
                       (Scenario.parseFloatSample "116.4074") (JS.ofZ 1000)]
  /\ exists msg,
      App.onClick Scenario.parseFloatSample "95" "116.4074" (JS.ofZ 1000)
      = [App.Alert msg].
Proof.
  split.
  - apply (proj1 (onClick_guard Scenario.parseFloatSample
                    "39.9042" "116.4074" (JS.ofZ 1000))).
    repeat split; try discriminate; reflexivity.
  - apply (proj2 (onClick_guard Scenario.parseFloatSample
                    "95" "116.4074" (JS.ofZ 1000))).
    intros [_ (_ & H & _)]. discriminate H.
Defined.

(** ** The engine *)

Section EngineFacts.

Import Engine.
Local Open Scope Q_scope.

Lemma all_criteria (id : CriterionId) : In id allCriteria.
Proof. destruct id; simpl; tauto. Qed.

Lemma clamp_bounds (x : Q) : 0 <= clamp x /\ clamp x <= 100.
Proof.
  unfold clamp. split.
  - apply Q.min_glb; [discriminate | apply Q.le_max_l].
  - apply Q.le_min_l.
Qed.

Lemma normalize_valid (cfg : Config) (id : CriterionId)
      (raw : option Numeric) :
  validValue (criterion cfg id) raw = true ->
  exists v,
    raw = Some (Finite v) /\
    normalize cfg id raw =
    Ok {| cs_id := id;
          cs_score := clamp (curve (criterion cfg id) v);
          cs_level := classify (clamp (curve (criterion cfg id) v)) |}.
Proof.
  unfold validValue, normalize.
  destruct raw as [[ | |v]|]; try discriminate.
  intros ->. exists v. split; reflexivity.
Qed.

Lemma normalize_invalid (cfg : Config) (id : CriterionId)
      (raw : option Numeric) :
  validValue (criterion cfg id) raw = false ->
  normalize cfg id raw = Err (InvalidMeasurement id).
Proof.
  unfold validValue, normalize.
  destruct raw as [[ | |v]|]; try reflexivity.
  intros ->. reflexivity.
Qed.

Lemma criterionEqb_eq (a b : CriterionId) :
  criterionEqb a b = true <-> a = b.
Proof. destruct a, b; simpl; split; intros H; congruence. Qed.

(** The validation of the entries: it succeeds exactly when every entry
    is valid, and fails on the first invalid entry otherwise. *)
Lemma mapM_entries (cfg : Config) (ms : list RawMeasurement) :
  match mapM (normalizeEntry cfg) ms with
  | Ok normalized =>
      (forall m, In m ms ->
                 validValue (criterion cfg (rm_criterion m)) (rm_value m)
                 = true)
      /\ Forall2 (scoredFrom cfg) ms normalized
  | Err e =>
      exists m,
        In m ms /\
        validValue (criterion cfg (rm_criterion m)) (rm_value m) = false /\
        e = InvalidMeasurement (rm_criterion m)
  end.
Proof.
  induction ms as [|m ms IH]; simpl.
  - split; [intros m [] | constructor].
  - unfold normalizeEntry at 1.
    destruct (validValue (criterion cfg (rm_criterion m)) (rm_value m))
      eqn:Hv.
    + destruct (normalize_valid cfg _ _ Hv) as (v & Hm & N).
      rewrite N. simpl.
      destruct (mapM (normalizeEntry cfg) ms) as [normalized|e]; simpl.
      * destruct IH as [Hall HF]. split.
        -- intros m' [<-|Hin]; [exact Hv | exact (Hall m' Hin)].
        -- constructor; [|exact HF]. split; [reflexivity|].
           exists v. split; [exact Hm | reflexivity].
      * destruct IH as (m' & Hin & Hbad & ->).
        exists m'. repeat split; [right|]; assumption.
    + rewrite (normalize_invalid cfg _ _ Hv). simpl.
      exists m. repeat split; [left; reflexivity | exact Hv].
Qed.

(** The look-up of the criteria: it succeeds exactly when every criterion
    has a normalized entry. *)
Lemma mapM_scoreFor (normalized : list CriterionScore)
      (ids : list CriterionId) :
  match mapM (scoreFor normalized) ids with
  | Ok scores =>
      map cs_id scores = ids /\ Forall (fun cs => In cs normalized) scores
  | Err e =>
      exists id,
        In id ids /\
        (forall cs, In cs normalized -> cs_id cs <> id) /\
        e = InvalidMeasurement id
  end.
Proof.
  induction ids as [|id ids IH]; simpl.
  - split; [reflexivity | constructor].
  - unfold scoreFor at 1.
    destruct (find (fun cs => criterionEqb (cs_id cs) id) normalized)
      as [cs|] eqn:F; simpl.
    + apply find_some in F. destruct F as [Hin Heq].
      apply criterionEqb_eq in Heq.
      destruct (mapM (scoreFor normalized) ids) as [scores|e]; simpl.
      * destruct IH as [Hids HF]. split.
        -- rewrite Heq, Hids. reflexivity.
        -- constructor; assumption.
      * destruct IH as (id' & Hin' & Hno & ->).
        exists id'. repeat split; [right|]; assumption.
    + exists id. repeat split; [left; reflexivity|].
      intros cs Hin Heq.
      pose proof (find_none _ _ F cs Hin) as N. simpl in N.
      apply criterionEqb_eq in Heq. congruence.
Qed.

Lemma Forall2_In_r {A B} (R : A -> B -> Prop) (xs : list A) (ys : list B) :
  Forall2 R xs ys -> forall y, In y ys -> exists x, In x xs /\ R x y.
Proof.
  induction 1 as [|x y xs ys HR _ IH]; intros y' Hin.
  - destruct Hin.
  - destruct Hin as [<-|Hin].
    + exists x. split; [left; reflexivity | exact HR].
    + destruct (IH y' Hin) as (x' & Hx & HR').
      exists x'. split; [right|]; assumption.
Qed.

Lemma Forall2_In_l {A B} (R : A -> B -> Prop) (xs : list A) (ys : list B) :
  Forall2 R xs ys -> forall x, In x xs -> exists y, In y ys /\ R x y.
Proof.
  induction 1 as [|x y xs ys HR _ IH]; intros x' Hin.
  - destruct Hin.
  - destruct Hin as [<-|Hin].
    + exists y. split; [left; reflexivity | exact HR].
    + destruct (IH x' Hin) as (y' & Hy & HR').
      exists y'. split; [right|]; assumption.
Qed.

(** The two outcomes of the pipeline. *)
Lemma analyze_cases (cfg : Config) (now : string)
      (ms : list RawMeasurement) :
  match analyze cfg now ms with
  | Ok r =>
      (forall m, In m ms ->
                 validValue (criterion cfg (rm_criterion m)) (rm_value m)
                 = true)
      /\ (forall id, exists m, In m ms /\ rm_criterion m = id)
      /\ map cs_id (detailed_scores r) = allCriteria
      /\ Forall (derived cfg ms) (detailed_scores r)
  | Err e =>
      exists id,
        e = InvalidMeasurement id /\
        ((exists m, In m ms /\ rm_criterion m = id /\
                    validValue (criterion cfg id) (rm_value m) = false)
         \/ (forall m, In m ms -> rm_criterion m <> id))
  end.
Proof.
  unfold analyze.
  pose proof (mapM_entries cfg ms) as HE.
  destruct (mapM (normalizeEntry cfg) ms) as [normalized|e]; cbn [bind].
  - destruct HE as [Hall HF].
    pose proof (mapM_scoreFor normalized allCriteria) as HS.
    destruct (mapM (scoreFor normalized) allCriteria) as [scores|e];
      cbv zeta; cbn [bind detailed_scores].
    + destruct HS as [Hids Hin].
      assert (Hd : Forall (derived cfg ms) scores).
      { apply Forall_forall. intros cs Hcs.
        rewrite Forall_forall in Hin.
        destruct (Forall2_In_r _ _ _ HF cs (Hin cs Hcs))
          as (m & Hm & Hid & v & Hv & Hsc).
        exists m, v. rewrite Hid.
        repeat split; try assumption; try reflexivity.
        apply Hall. exact Hm. }
      split; [exact Hall|]. split; [|split; assumption].
      intros id.
      assert (Hi : In id (map cs_id scores)).
      { rewrite Hids. apply all_criteria. }
      apply in_map_iff in Hi. destruct Hi as (cs & Hcs & Hcsin).
      rewrite Forall_forall in Hd.
      destruct (Hd cs Hcsin) as (m & v & Hm & Hc & _).
      exists m. split; [exact Hm | congruence].
    + destruct HS as (id & _ & Hno & ->).
      exists id. split; [reflexivity|]. right.
      intros m Hm Hid.
      destruct (Forall2_In_l _ _ _ HF m Hm) as (cs & Hcs & Hcid & _).
      apply (Hno cs Hcs). congruence.
  - destruct HE as (m & Hm & Hbad & ->).
    exists (rm_criterion m). split; [reflexivity|]. left.
    exists m. repeat split; assumption.
Qed.

Lemma inVeryPoor_belowFair (cs : CriterionScore) :
  inVeryPoor cs = true -> belowFair cs = true.
Proof.
  unfold inVeryPoor, belowFair, classify.
  destruct (Qle_bool 90 (cs_score cs)); [discriminate|].
  destruct (Qle_bool 75 (cs_score cs)); [discriminate|].
  destruct (Qle_bool 60 (cs_score cs)); [discriminate|].
  reflexivity.
Qed.

Lemma veryPoor_subThreshold (scores : list CriterionScore) :
  existsb inVeryPoor scores = true -> subThreshold scores <> [].
Proof.
  intros H. apply existsb_exists in H. destruct H as (cs & Hin & Hvp).
  assert (Hs : In cs (subThreshold scores)).
  { apply filter_In. split; [exact Hin|].
    apply inVeryPoor_belowFair. exact Hvp. }
  intros E. rewrite E in Hs. destruct Hs.
Qed.

Lemma penalty_met (gl : GoalSpec) (s : Q) :
  target gl <= s -> penalty gl s == 0.
Proof.
  intros H. unfold penalty, deviation.
  rewrite Q.max_l.
  - ring.
  - apply (Qplus_le_l _ _ s). ring_simplify. exact H.
Qed.

Lemma penalty_compat (gl : GoalSpec) (a b : Q) :
  a == b -> penalty gl a == penalty gl b.
Proof.
  intros H. unfold penalty, deviation. rewrite H. reflexivity.
Qed.

End EngineFacts.

Section EngineClaims.

Import Engine.
Local Open Scope Q_scope.

(** C7. For every valid raw measurement (present, finite, inside the
    declared physical domain of its criterion) [normalize] returns a
    score, and that score lies in [0,100] whatever the natural range of
    the configured curve. *)
Theorem normalize_clamped (cfg : Config) (id : CriterionId)
        (raw : option Numeric)
        (Hvalid : validValue (criterion cfg id) raw = true) :
  exists cs,
    normalize cfg id raw = Ok cs /\
    cs_id cs = id /\
    0 <= cs_score cs /\ cs_score cs <= 100.
Proof.
  destruct (normalize_valid cfg id raw Hvalid) as (v & _ & N).
  eexists. split; [exact N|]. split; [reflexivity|].
  apply clamp_bounds.
Qed.

Lemma normalize_clamped_witness :
  exists cs,
    normalize Scenario.config grid_capacity (Some (Finite 150)) = Ok cs /\
    cs_id cs = grid_capacity /\
    0 <= cs_score cs /\ cs_score cs <= 100.
Proof.
  apply (normalize_clamped Scenario.config grid_capacity
                           (Some (Finite 150))).
  reflexivity.
Defined.

(** C5. The goal-programming penalty is one-sided: the penalty of a group
    is priority times max(0, target - groupScore), and raising the score
    of a group that is already at or above its target, all else equal,
    leaves the composite penalty term unchanged. *)
Theorem penalty_one_sided
        (goals : Group -> GoalSpec) (gs gs' : Group -> Q) (g0 : Group)
        (Hmet : target (goals g0) <= gs g0)
        (Hraised : gs g0 <= gs' g0)
        (Hrest : forall g, g <> g0 -> gs' g == gs g) :
  (forall g s,
      penalty (goals g) s
      == priority (goals g) * Qmax 0 (target (goals g) - s)) /\
  penalty (goals g0) (gs' g0) == penalty (goals g0) (gs g0) /\
  penaltyTerm goals gs' == penaltyTerm goals gs.
Proof.
  assert (P0 : penalty (goals g0) (gs' g0) == penalty (goals g0) (gs g0)).
  { rewrite (penalty_met _ _ Hmet).
    apply penalty_met. apply Qle_trans with (gs g0); assumption. }
  split; [intros g s; reflexivity|]. split; [exact P0|].
  unfold penaltyTerm. destruct g0.
  - rewrite P0.
    rewrite (penalty_compat _ _ _ (Hrest natural_technical
                                         ltac:(discriminate))).
    reflexivity.
  - rewrite P0.
    rewrite (penalty_compat _ _ _ (Hrest economic ltac:(discriminate))).
    reflexivity.
Qed.

Lemma penalty_one_sided_witness :
  penaltyTerm (goal Scenario.config)
              (fun g => match g with
                        | economic => 14
                        | natural_technical => 90
                        end)
  == penaltyTerm (goal Scenario.config)
                 (fun g => match g with
                           | economic => 14
                           | natural_technical => 61
                           end).
Proof.
  apply (penalty_one_sided (goal Scenario.config)
           (fun g => match g with
                     | economic => 14 | natural_technical => 61 end)
           (fun g => match g with
                     | economic => 14 | natural_technical => 90 end)
           natural_technical).
  - discriminate.
  - discriminate.
  - intros [|] H; [reflexivity | congruence].
Defined.

(** C3. Whenever a raw measurement of the set is missing, non-finite or out
    of its physical domain, the pipeline fails with a named
    InvalidMeasurement for that criterion and returns no result, and it
    fails in no other case; a result it returns holds, for each criterion,
    a score derived from a valid entry of the set, never a substituted
    one. *)
Theorem invalid_measurement_surfaced (cfg : Config) (now : string)
        (ms : list RawMeasurement) :
  let invalid (m : RawMeasurement) :=
    validValue (criterion cfg (rm_criterion m)) (rm_value m) = false in
  let missing (id : CriterionId) :=
    forall m, In m ms -> rm_criterion m <> id in
  ((exists m, In m ms /\ invalid m) \/ (exists id, missing id) <->
   exists id, analyze cfg now ms = Err (InvalidMeasurement id))
  /\ (forall e,
        analyze cfg now ms = Err e ->
        exists id,
          e = InvalidMeasurement id /\
          ((exists m, In m ms /\ rm_criterion m = id /\ invalid m)
           \/ missing id))
  /\ ((forall m, In m ms -> ~ invalid m) ->
      (forall id, ~ missing id) ->
      exists r, analyze cfg now ms = Ok r)
  /\ (forall r,
        analyze cfg now ms = Ok r ->
        map cs_id (detailed_scores r) = allCriteria /\
        Forall (derived cfg ms) (detailed_scores r)).
Proof.
  intros invalid missing. unfold invalid, missing.
  pose proof (analyze_cases cfg now ms) as H.
  destruct (analyze cfg now ms) as [r|e].
  - destruct H as (Hall & Hpres & Hids & Hd).
    split; [|split; [|split]].
    + split.
      * intros [(m & Hm & Hbad)|(id & Hmiss)].
        -- rewrite (Hall m Hm) in Hbad. discriminate.
        -- destruct (Hpres id) as (m & Hm & Hid).
           destruct (Hmiss m Hm Hid).
      * intros (id & E). discriminate E.
    + intros e E. discriminate E.
    + intros _ _. exists r. reflexivity.
    + intros r' E. injection E as <-. split; assumption.
  - destruct H as (id & -> & Hbad).
    split; [|split; [|split]].
    + split.
      * intros _. exists id. reflexivity.
      * intros _. destruct Hbad as [(m & Hm & Hid & Hv)|Hmiss].
        -- left. exists m. split; [exact Hm|]. rewrite Hid. exact Hv.
        -- right. exists id. exact Hmiss.
    + intros e E. injection E as <-. exists id. split; [reflexivity|].
      destruct Hbad as [(m & Hm & Hid & Hv)|Hmiss].
      * left. exists m. repeat split; try assumption.
        rewrite Hid. exact Hv.
      * right. exact Hmiss.
    + intros Hvalid Hpres. exfalso.
      destruct Hbad as [(m & Hm & Hid & Hv)|Hmiss].
      * apply (Hvalid m Hm). rewrite Hid. exact Hv.
      * apply (Hpres id). exact Hmiss.
    + intros r E. discriminate E.
Qed.

Lemma invalid_measurement_surfaced_witness :
  (exists id,
      analyze Scenario.config "2026-01-01T00:00:00Z"
              Scenario.measurementsTrailingNaN
      = Err (InvalidMeasurement id))
  /\ (exists id,
        analyze Scenario.config "2026-01-01T00:00:00Z"
                Scenario.measurementsNoGrid
        = Err (InvalidMeasurement id))
  /\ (exists r,
        analyze Scenario.config "2026-01-01T00:00:00Z"
                Scenario.measurementsA = Ok r).
Proof.
  split; [|split].
  - apply (proj1 (invalid_measurement_surfaced
                    Scenario.config "2026-01-01T00:00:00Z"
                    Scenario.measurementsTrailingNaN)).
    left. exists Scenario.gridNaN. split; [|reflexivity].
    unfold Scenario.measurementsTrailingNaN. apply in_or_app.
    right. left. reflexivity.
  - apply (proj1 (invalid_measurement_surfaced
                    Scenario.config "2026-01-01T00:00:00Z"
                    Scenario.measurementsNoGrid)).
    right. exists grid_capacity. intros m Hin. simpl in Hin.
    destruct Hin as [<-|[<-|[<-|[<-|[]]]]]; discriminate.
  - apply (proj1 (proj2 (proj2 (invalid_measurement_surfaced
                                  Scenario.config "2026-01-01T00:00:00Z"
                                  Scenario.measurementsA)))).
    + intros m Hin. simpl in Hin.
      destruct Hin as [<-|[<-|[<-|[<-|[<-|[]]]]]]; discriminate.
    + intros id Hmiss. simpl in Hmiss.
      destruct id.
      * apply (Hmiss (Scenario.measure land_suitability 80));
          [auto 10 | reflexivity].
      * apply (Hmiss (Scenario.measure energy_resources 70));
          [auto 10 | reflexivity].
      * apply (Hmiss (Scenario.measure grid_capacity 75));
          [auto 10 | reflexivity].
      * apply (Hmiss (Scenario.measure economic_feasibility 70));
          [auto 10 | reflexivity].
      * apply (Hmiss (Scenario.measure environmental_impact 80));
          [auto 10 | reflexivity].
Defined.

End EngineClaims.

Section RiskClaims.

Import Engine.
Local Open Scope Q_scope.

(** C4, the claim as stated fails: a single criterion below 60 that is
    also VeryPoor (grid capacity at 40) is exactly one sub-threshold
    criterion, yet the level is High, not Medium. *)
Lemma single_very_poor_is_high :
  List.length (subThreshold [Scenario.scoreOf grid_capacity 40]) = 1%nat
  /\ risk_level (assessRisk Scenario.config
                            [Scenario.scoreOf grid_capacity 40] 40) = High
  /\ ~ (List.length (subThreshold [Scenario.scoreOf grid_capacity 40])
        = 1%nat ->
        risk_level (assessRisk Scenario.config
                               [Scenario.scoreOf grid_capacity 40] 40)
        = Medium).
Proof.
  split; [reflexivity|]. split; [reflexivity|].
  intros H. specialize (H eq_refl). discriminate H.
Qed.

(** C4, amended. The risk level follows from the criteria with
    score < 60: none gives Low; exactly one, not VeryPoor, gives Medium;
    two or more, or any criterion in VeryPoor, gives High.  Every
    sub-threshold criterion yields its named risk factor, and a Medium or
    High level comes with at least one mitigation suggestion. *)
Theorem assessRisk_levels (cfg : Config) (scores : list CriterionScore)
        (composite : Q) :
  let r := assessRisk cfg scores composite in
  let n := List.length (subThreshold scores) in
  (n = 0%nat -> risk_level r = Low)
  /\ (n = 1%nat -> existsb inVeryPoor scores = false ->
      risk_level r = Medium)
  /\ ((2 <= n)%nat \/ existsb inVeryPoor scores = true ->
      risk_level r = High)
  /\ risks r = map (fun cs => riskFactor cfg (cs_id cs)) (subThreshold scores)
  /\ (risk_level r = Medium \/ risk_level r = High ->
      mitigation_measures r <> []).
Proof.
  intros r n. unfold r, assessRisk, riskLevelOf. cbn [risk_level risks
    mitigation_measures]. fold n.
  split; [|split; [|split; [|split]]].
  - intros Hn.
    destruct (existsb inVeryPoor scores) eqn:Hvp.
    { apply veryPoor_subThreshold in Hvp.
      destruct (subThreshold scores); [congruence | discriminate Hn]. }
    rewrite Hn. reflexivity.
  - intros Hn ->. rewrite Hn. reflexivity.
  - intros [Hn| ->].
    + apply Nat.leb_le in Hn. rewrite Hn. reflexivity.
    + rewrite orb_true_r. reflexivity.
  - reflexivity.
  - intros Hlvl.
    assert (Hne : subThreshold scores <> []).
    { destruct (existsb inVeryPoor scores) eqn:Hvp.
      - apply veryPoor_subThreshold. exact Hvp.
      - rewrite orb_false_r in Hlvl. unfold n in Hlvl.
        destruct (subThreshold scores) as [|a [|b l]]; simpl in Hlvl;
          try discriminate.
        destruct Hlvl; discriminate. }
    destruct (subThreshold scores) as [|a l]; [congruence|].
    destruct ((2 <=? n)%nat || existsb inVeryPoor scores)%bool;
      [discriminate|].
    destruct (n =? 1)%nat; [discriminate|].
    destruct Hlvl; discriminate.
Qed.

Lemma assessRisk_levels_witness :
  risk_level (assessRisk Scenario.config
                [Scenario.scoreOf land_suitability 80;
                 Scenario.scoreOf grid_capacity 50] 65) = Medium
  /\ mitigation_measures
       (assessRisk Scenario.config
          [Scenario.scoreOf land_suitability 80;
           Scenario.scoreOf grid_capacity 50] 65) <> [].
Proof.
  pose proof (assessRisk_levels Scenario.config
                [Scenario.scoreOf land_suitability 80;
                 Scenario.scoreOf grid_capacity 50] 65)
    as (_ & HM & _ & _ & Hmit).
  split.
  - apply HM; reflexivity.
  - apply Hmit. left. apply HM; reflexivity.
Defined.

(** C6. When no criterion triggers a risk the mitigation list is empty
    and the component draws the explicit alert for it; it draws the same
    alert for an empty or absent list, and for a non-empty list it draws
    the measures and not the alert. *)
Theorem no_risk_no_mitigation (cfg : Config)
        (scores : list CriterionScore) (composite : Q)
        (dr : Payload.DecisionRecommendation) :
  let ra := assessRisk cfg scores composite in
  let measures :=
    Some dr ?. Payload.risk_assessment ?. Payload.mitigation_measures in
  let alert :=
    DecisionAnalysis.NoMitigationAlert
      "暂无风险缓解措施"
      "当前风险评估显示风险较低，无需特殊缓解措施。" in
  (subThreshold scores = [] ->
   mitigation_measures ra = [] /\
   (Payload.risk_assessment dr = Some (riskPayload ra) ->
    DecisionAnalysis.mitigationPanel (Some dr) = alert))
  /\ (measures = None \/ measures = Some [] ->
      DecisionAnalysis.mitigationPanel (Some dr) = alert)
  /\ (forall x xs, measures = Some (x :: xs) ->
      DecisionAnalysis.mitigationPanel (Some dr)
      = DecisionAnalysis.MeasureList (x :: xs)).
Proof.
  intros ra measures alert.
  assert (E : subThreshold scores = [] -> mitigation_measures ra = []).
  { intros Hs. unfold ra, assessRisk. cbn [mitigation_measures].
    rewrite Hs. destruct (riskLevelOf scores); reflexivity. }
  split; [|split].
  - intros Hs. split; [exact (E Hs)|].
    intros Hp. unfold DecisionAnalysis.mitigationPanel.
    cbn [Payload.chain]. rewrite Hp. cbn [Payload.chain riskPayload
      Payload.mitigation_measures]. rewrite (E Hs). reflexivity.
  - unfold DecisionAnalysis.mitigationPanel. fold measures.
    intros [-> | ->]; reflexivity.
  - intros x xs. unfold DecisionAnalysis.mitigationPanel. fold measures.
    intros ->. reflexivity.
Qed.

Lemma no_risk_no_mitigation_witness :
  exists m d,
    DecisionAnalysis.mitigationPanel
      (Some {| Payload.overall_score := None;
               Payload.detailed_scores := None;
               Payload.decision_level := None;
               Payload.risk_assessment :=
                 Some (riskPayload
                         (assessRisk Scenario.config
                            [Scenario.scoreOf grid_capacity 75] 75));
               Payload.recommendations := None;
               Payload.analysis_date := None |})
    = DecisionAnalysis.NoMitigationAlert m d.
Proof.
  do 2 eexists.
  apply (proj1 (no_risk_no_mitigation Scenario.config
                  [Scenario.scoreOf grid_capacity 75] 75 _)).
  - reflexivity.
  - reflexivity.
Defined.

(** The end-to-end scenarios A and B of the specification. *)
Example scenario_A :
  exists r,
    analyze Scenario.config "2026-01-01T00:00:00Z" Scenario.measurementsA
    = Ok r /\
    fst (overall_score r) == 75 /\
    snd (overall_score r) = Good /\
    decision_level r = Recommended /\
    risk_level (risk_assessment r) = Low /\
    mitigation_measures (risk_assessment r) = [] /\
    recommendations r <> [].
Proof.
  eexists. split; [reflexivity|].
  repeat split; try (vm_compute; reflexivity).
  vm_compute. discriminate.
Qed.

Example scenario_B :
  exists r,
    analyze Scenario.config "2026-01-01T00:00:00Z" Scenario.measurementsB
    = Ok r /\
    risk_level (risk_assessment r) = High /\
    risks (risk_assessment r) = ["grid capacity constrained"] /\
    mitigation_measures (risk_assessment r)
    = ["reinforce the grid connection"].
Proof.
  eexists. split; [reflexivity|]. repeat split.
Qed.

End RiskClaims.

(** ** Further properties of the components *)

(** The level of a score, read back from the guards: each level is given
    exactly on its interval; NaN and everything below 45 is VeryPoor,
    everything from 90 up, however large, is Excellent. *)
Theorem getScoreLevel_iff (score : JS.number) :
  let lvl := DecisionAnalysis.getScoreLevel score in
  (lvl = levelLabel Excellent <-> (score >= n90)%js = true)
  /\ (lvl = levelLabel Good <->
      (score >= n75)%js = true /\ (score >= n90)%js = false)
  /\ (lvl = levelLabel Fair <->
      (score >= n60)%js = true /\ (score >= n75)%js = false)
  /\ (lvl = levelLabel Poor <->
      (score >= n45)%js = true /\ (score >= n60)%js = false)
  /\ (lvl = levelLabel VeryPoor <-> (score >= n45)%js = false).
Proof.
  intros lvl. unfold lvl. rewrite getScoreLevel_cases.
  pose proof (ge_n90_n75 score) as A.
  pose proof (ge_n75_n60 score) as B.
  pose proof (ge_n60_n45 score) as C.
  destruct (score >= n90)%js, (score >= n75)%js, (score >= n60)%js,
           (score >= n45)%js;
    try (specialize (A eq_refl)); try (specialize (B eq_refl));
    try (specialize (C eq_refl)); try discriminate;
    repeat split; intros; try reflexivity; try discriminate;
    try (destruct H; discriminate).
Qed.

(** Colour and level go together: two scores are drawn in the same colour
    exactly when they are given the same level. *)
Theorem color_level_agree (x y : JS.number) :
  DecisionAnalysis.getScoreColor x = DecisionAnalysis.getScoreColor y
  <-> DecisionAnalysis.getScoreLevel x = DecisionAnalysis.getScoreLevel y.
Proof.
  unfold DecisionAnalysis.getScoreColor, DecisionAnalysis.getScoreLevel.
  destruct (x >= n90)%js, (x >= n75)%js, (x >= n60)%js, (x >= n45)%js,
           (y >= n90)%js, (y >= n75)%js, (y >= n60)%js, (y >= n45)%js;
    split; intros H; try reflexivity; discriminate H.
Qed.

Lemma orElse_not_NaN (v : option JS.number) (d : JS.number) :
  d <> JS.NaN -> JS.orElse v d <> JS.NaN.
Proof.
  intros Hd. unfold JS.orElse.
  destruct v as [[s|s| |s m e]|]; simpl; try exact Hd; discriminate.
Qed.

(** Whatever the payload holds, the scores the components hand to the
    progress circle and to the key indicators are never NaN; a score that
    is present and truthy is shown as it is. *)
Theorem drawn_scores_not_NaN (data : Payload.AnalysisData) :
  let dr := Payload.decision_recommendation data in
  percent (DecisionAnalysis.overallCircle dr) <> JS.NaN
  /\ (exists c, AnalysisResults.overallCircle (Some data) = Some c
                /\ percent c <> JS.NaN)
  /\ Forall (fun kv => snd kv <> JS.NaN) (DecisionAnalysis.keyIndicators dr)
  /\ (forall n,
        dr ?. Payload.overall_score ?. Payload.score = Some n ->
        JS.truthy n = true ->
        percent (DecisionAnalysis.overallCircle dr) = n).
Proof.
  intros dr.
  assert (Z : n0 <> JS.NaN) by discriminate.
  split; [|split; [|split]].
  - apply orElse_not_NaN, Z.
  - eexists. split; [reflexivity|]. apply orElse_not_NaN, Z.
  - unfold DecisionAnalysis.keyIndicators.
    repeat constructor; apply orElse_not_NaN, Z.
  - intros n Hn Ht. unfold DecisionAnalysis.overallCircle. simpl.
    rewrite Hn. simpl. rewrite Ht. reflexivity.
Qed.

Lemma drawn_scores_not_NaN_witness :
  percent (DecisionAnalysis.overallCircle
             (Some {| Payload.overall_score :=
                        Some {| Payload.score := Some (JS.ofZ 82);
                                Payload.level := None |};
                      Payload.detailed_scores := None;
                      Payload.decision_level := None;
                      Payload.risk_assessment := None;
                      Payload.recommendations := None;
                      Payload.analysis_date := None |}))
  = JS.ofZ 82.
Proof.
  apply (proj2 (proj2 (proj2
           (drawn_scores_not_NaN
              {| Payload.decision_recommendation :=
                   Some {| Payload.overall_score :=
                             Some {| Payload.score := Some (JS.ofZ 82);
                                     Payload.level := None |};
                           Payload.detailed_scores := None;
                           Payload.decision_level := None;
                           Payload.risk_assessment := None;
                           Payload.recommendations := None;
                           Payload.analysis_date := None |} |})))).
  - reflexivity.
  - reflexivity.
Defined.

(** The decision tag is coloured exactly for the five tier labels; the two
    negative tiers share red; an absent or empty level is drawn with the
    default colour under the text for "unknown". *)
Theorem decisionTag_colours (dr : option Payload.DecisionRecommendation) :
  let dl := dr ?. Payload.decision_level in
  (fst (DecisionAnalysis.decisionTag dr) <> "default" <->
   exists l, dl = Some l /\
             In l ["强烈推荐"; "推荐"; "可以考虑"; "不推荐"; "强烈不推荐"])
  /\ (fst (DecisionAnalysis.decisionTag dr) = "red" <->
      dl = Some "不推荐" \/ dl = Some "强烈不推荐")
  /\ (dl = None \/ dl = Some "" ->
      DecisionAnalysis.decisionTag dr = ("default", "未知")).
Proof.
  intros dl. unfold DecisionAnalysis.decisionTag. fold dl.
  assert (K : forall l,
             DecisionAnalysis.getDecisionLevelColor l <> "default" <->
             In l ["强烈推荐"; "推荐"; "可以考虑"; "不推荐"; "强烈不推荐"]).
  { intros l. unfold DecisionAnalysis.getDecisionLevelColor.
    destruct (String.eqb_spec l "强烈推荐");
      [subst; split; [intros _; simpl; auto 10 | discriminate]|].
    destruct (String.eqb_spec l "推荐");
      [subst; split; [intros _; simpl; auto 10 | discriminate]|].
    destruct (String.eqb_spec l "可以考虑");
      [subst; split; [intros _; simpl; auto 10 | discriminate]|].
    destruct (String.eqb_spec l "不推荐");
      [subst; split; [intros _; simpl; auto 10 | discriminate]|].
    destruct (String.eqb_spec l "强烈不推荐");
      [subst; split; [intros _; simpl; auto 10 | discriminate]|].
    split; [congruence|]. intros [H|[H|[H|[H|[H|[]]]]]]; congruence. }
  assert (R : forall l,
             DecisionAnalysis.getDecisionLevelColor l = "red" <->
             l = "不推荐" \/ l = "强烈不推荐").
  { intros l. unfold DecisionAnalysis.getDecisionLevelColor.
    destruct (String.eqb_spec l "强烈推荐");
      [subst; split; [discriminate | intros [H|H]; discriminate H]|].
    destruct (String.eqb_spec l "推荐");
      [subst; split; [discriminate | intros [H|H]; discriminate H]|].
    destruct (String.eqb_spec l "可以考虑");
      [subst; split; [discriminate | intros [H|H]; discriminate H]|].
    destruct (String.eqb_spec l "不推荐"); [tauto|].
    destruct (String.eqb_spec l "强烈不推荐"); [tauto|].
    split; [discriminate | intros [H|H]; congruence]. }
  split; [|split].
  - destruct dl as [[|c l]|]; cbn [DecisionAnalysis.orStr JS.truthyStr fst].
    + split; [intros H; exfalso; apply H; reflexivity|].
      intros (l & E & Hin). injection E as <-.
      apply K in Hin. exact Hin.
    + generalize (String c l). intros s. rewrite K. split.
      * intros H. eexists. split; [reflexivity | exact H].
      * intros (l' & E & Hin). injection E as <-. exact Hin.
    + split; [intros H; exfalso; apply H; reflexivity|].
      intros (l & E & _). discriminate E.
  - destruct dl as [[|c l]|]; cbn [DecisionAnalysis.orStr JS.truthyStr fst].
    + split; [discriminate | intros [H|H]; discriminate H].
    + generalize (String c l). intros s. rewrite R.
      split; intros [H|H]; [left | right | left | right]; congruence.
    + split; [discriminate | intros [H|H]; discriminate H].
  - intros [-> | ->]; reflexivity.
Qed.

Lemma decisionTag_colours_witness :
  DecisionAnalysis.decisionTag
    (Some {| Payload.overall_score := None;
             Payload.detailed_scores := None;
             Payload.decision_level := Some "";
             Payload.risk_assessment := None;
             Payload.recommendations := None;
             Payload.analysis_date := None |})
  = ("default", "未知").
Proof.
  apply (proj2 (proj2 (decisionTag_colours _))). right. reflexivity.
Defined.

(** The key of a radar point is the entry key with its first underscore,
    and only the first, turned into a space; a key without underscore is
    kept. *)
Theorem replaceFirst_spec (s : string) :
  (DecisionAnalysis.occurs "_" s = false ->
   DecisionAnalysis.replaceFirst s = s)
  /\ (forall pre post,
        s = (pre ++ String "_" post)%string ->
        DecisionAnalysis.occurs "_" pre = false ->
        DecisionAnalysis.replaceFirst s = (pre ++ String " " post)%string).
Proof.
  split.
  - induction s as [|c s IH]; simpl; [reflexivity|].
    destruct (Ascii.eqb c "_"); simpl; [discriminate|].
    intros H. rewrite (IH H). reflexivity.
  - intros pre. revert s.
    induction pre as [|c pre IH]; intros s post -> Hpre; simpl.
    + reflexivity.
    + simpl in Hpre. destruct (Ascii.eqb c "_"); [discriminate|].
      simpl in Hpre. rewrite (IH _ post eq_refl Hpre). reflexivity.
Qed.

Lemma replaceFirst_spec_witness :
  DecisionAnalysis.replaceFirst "a_b_c" = "a b_c".
Proof.
  apply (proj2 (replaceFirst_spec "a_b_c") "a" "b_c"); reflexivity.
Defined.

(** How a point of the labelled radar data answers its entry: the score of
    the entry, the full mark 100, and the label of the entry's key, which
    is the Chinese label for each of the five criterion identifiers of the
    payload, whatever the host objects inherit, and the key with its first
    underscore replaced for a key that has no label and inherits none. *)
Lemma radar_point_of_entry (inherited : string -> bool)
      (kv : string * DecisionAnalysis.EntryValue)
      (sc : option JS.number) :
  DecisionAnalysis.scoreOfEntry (snd kv) = Some sc ->
  let p :=
    {| DecisionAnalysis.criterion :=
         DecisionAnalysis.criteriaLabel
           inherited (DecisionAnalysis.replaceFirst (fst kv));
       DecisionAnalysis.score := sc;
       DecisionAnalysis.fullMark := DecisionAnalysis.n100 |} in
  DecisionAnalysis.scoreOfEntry (snd kv)
  = Some (DecisionAnalysis.score p)
  /\ DecisionAnalysis.fullMark p = JS.ofZ 100
  /\ (forall zh,
        In (fst kv, zh) [("land_suitability", "土地适宜性");
                         ("energy_resources", "能源资源");
                         ("grid_capacity", "电网容量");
                         ("economic_feasibility", "经济可行性");
                         ("environmental_impact", "环境影响")] ->
        DecisionAnalysis.criterion p = DecisionAnalysis.Text zh)
  /\ (Payload.field (DecisionAnalysis.replaceFirst (fst kv))
                    DecisionAnalysis.criteriaLabels = None ->
      inherited (DecisionAnalysis.replaceFirst (fst kv)) = false ->
      DecisionAnalysis.criterion p
      = DecisionAnalysis.Text (DecisionAnalysis.replaceFirst (fst kv))).
Proof.
  intros Hsc p. split; [exact Hsc|]. split; [reflexivity|]. split.
  - intros zh Hin. simpl in Hin. unfold p.
    cbn [DecisionAnalysis.criterion].
    destruct Hin as [H|[H|[H|[H|[H|[]]]]]]; injection H as <- <-;
      reflexivity.
  - intros Hf Hi. unfold p. cbn [DecisionAnalysis.criterion].
    unfold DecisionAnalysis.criteriaLabel. rewrite Hf, Hi. reflexivity.
Qed.

(** The labelled radar data has one point per entry of the detailed
    scores, in order: each point carries the score of its entry, the full
    mark 100 and the label of its entry's key (for each of the five
    criterion identifiers of the payload its Chinese label, whatever the
    host objects inherit).  One nullish entry makes the whole computation
    throw; absent detailed scores give no point; a payload whose entries
    are all records never throws. *)
Theorem radar_points (inherited : string -> bool)
        (entries : list (string * DecisionAnalysis.EntryValue)) :
  let answers (kv : string * DecisionAnalysis.EntryValue)
              (p : DecisionAnalysis.RadarPoint DecisionAnalysis.Label) :=
    DecisionAnalysis.scoreOfEntry (snd kv)
    = Some (DecisionAnalysis.score p)
    /\ DecisionAnalysis.fullMark p = JS.ofZ 100
    /\ (forall zh,
          In (fst kv, zh) [("land_suitability", "土地适宜性");
                           ("energy_resources", "能源资源");
                           ("grid_capacity", "电网容量");
                           ("economic_feasibility", "经济可行性");
                           ("environmental_impact", "环境影响")] ->
          DecisionAnalysis.criterion p = DecisionAnalysis.Text zh)
    /\ (Payload.field (DecisionAnalysis.replaceFirst (fst kv))
                      DecisionAnalysis.criteriaLabels = None ->
        inherited (DecisionAnalysis.replaceFirst (fst kv)) = false ->
        DecisionAnalysis.criterion p
        = DecisionAnalysis.Text (DecisionAnalysis.replaceFirst (fst kv)))
  in
  ((exists key, In (key, DecisionAnalysis.Nullish) entries) ->
   DecisionAnalysis.radarDataWithLabels inherited (Some entries) = None)
  /\ ((forall key, ~ In (key, DecisionAnalysis.Nullish) entries) ->
      exists points,
        DecisionAnalysis.radarDataWithLabels inherited (Some entries)
        = Some points
        /\ Forall2 answers entries points)
  /\ DecisionAnalysis.radarDataWithLabels inherited None = Some []
  /\ (forall dr, exists points,
        DecisionAnalysis.radarDataWithLabels
          inherited (DecisionAnalysis.entriesOf dr) = Some points).
Proof.
  intros answers.
  assert (OK : forall es,
             (forall key, ~ In (key, DecisionAnalysis.Nullish) es) ->
             exists points,
               DecisionAnalysis.radarDataWithLabels inherited (Some es)
               = Some points
               /\ Forall2 answers es points).
  { unfold DecisionAnalysis.radarDataWithLabels, DecisionAnalysis.radarData.
    induction es as [|[key v] es IH]; intros Hno.
    - exists []. split; [reflexivity | constructor].
    - destruct IH as (points & E & HF).
      { intros k Hk. apply (Hno k). right. exact Hk. }
      cbn [DecisionAnalysis.mapThrowing snd fst].
      destruct (DecisionAnalysis.scoreOfEntry v) as [sc|] eqn:Hsc.
      + destruct (DecisionAnalysis.mapThrowing _ es) as [raw|];
          [|discriminate E].
        injection E as <-. eexists. split; [reflexivity|].
        cbn [map DecisionAnalysis.criterion DecisionAnalysis.score
             DecisionAnalysis.fullMark].
        constructor; [|exact HF].
        apply (radar_point_of_entry inherited (key, v) sc). exact Hsc.
      + destruct v; try discriminate Hsc.
        destruct (Hno key). left. reflexivity. }
  split; [|split; [|split]].
  - intros (key & Hin).
    unfold DecisionAnalysis.radarDataWithLabels, DecisionAnalysis.radarData.
    induction entries as [|[k v] es IH]; [destruct Hin|].
    cbn [DecisionAnalysis.mapThrowing snd fst].
    destruct Hin as [H|Hin].
    + injection H as -> ->. reflexivity.
    + destruct (DecisionAnalysis.scoreOfEntry v); [|reflexivity].
      specialize (IH Hin).
      destruct (DecisionAnalysis.mapThrowing _ es); [discriminate IH|].
      reflexivity.
  - apply OK.
  - reflexivity.
  - intros dr. unfold DecisionAnalysis.entriesOf.
    destruct (dr ?. Payload.detailed_scores) as [es|].
    + destruct (OK (map (fun kv => (fst kv, DecisionAnalysis.Scored (snd kv)))
                        es)) as (points & E & _).
      * intros key Hin. apply in_map_iff in Hin.
        destruct Hin as (kv & H & _). discriminate H.
      * exists points. exact E.
    + exists []. reflexivity.
Qed.

Lemma radar_points_witness :
  exists points,
    DecisionAnalysis.radarDataWithLabels
      (fun _ => true)
      (Some [("grid_capacity",
              DecisionAnalysis.Scored {| Payload.score := Some (JS.ofZ 40);
                                         Payload.level := None |});
             ("site_a_b", DecisionAnalysis.Primitive)])
    = Some points
    /\ map DecisionAnalysis.criterion points
       = [DecisionAnalysis.Text "电网容量";
          DecisionAnalysis.Inherited "site a_b"].
Proof.
  destruct (proj1 (proj2 (radar_points
              (fun _ => true)
              [("grid_capacity",
                DecisionAnalysis.Scored {| Payload.score := Some (JS.ofZ 40);
                                           Payload.level := None |});
               ("site_a_b", DecisionAnalysis.Primitive)])))
    as (points & E & _).
  - intros key [H|[H|[]]]; discriminate H.
  - exists points. split; [exact E|].
    injection E as <-. reflexivity.
Defined.

(** The risk tag is green exactly for the low level, orange exactly for
    the medium one and red for anything else; an absent or empty level is
    red under the text for "unknown". *)
Theorem riskTag_colours (dr : option Payload.DecisionRecommendation) :
  let rl := dr ?. Payload.risk_assessment ?. Payload.risk_level in
  (fst (DecisionAnalysis.riskTag dr) = "green" <-> rl = Some "低")
  /\ (fst (DecisionAnalysis.riskTag dr) = "orange" <-> rl = Some "中")
  /\ (fst (DecisionAnalysis.riskTag dr) = "red" <->
      rl <> Some "低" /\ rl <> Some "中")
  /\ (rl = None \/ rl = Some "" ->
      DecisionAnalysis.riskTag dr = ("red", "未知")).
Proof.
  intros rl. unfold DecisionAnalysis.riskTag. fold rl. cbn [fst].
  destruct rl as [l|].
  - destruct (String.eqb_spec l "低") as [->|N1].
    { repeat split; intros; try reflexivity; try discriminate;
        try congruence.
      - destruct H as [H _]. congruence.
      - destruct H as [H|H]; discriminate H. }
    destruct (String.eqb_spec l "中") as [->|N2].
    { repeat split; intros; try reflexivity; try discriminate;
        try congruence.
      - destruct H as [_ H]. congruence.
      - destruct H as [H|H]; discriminate H. }
    repeat split; intros; try reflexivity; try discriminate;
      try congruence.
    destruct H as [H|H]; [discriminate H|]. injection H as ->.
    reflexivity.
  - repeat split; intros; try reflexivity; try discriminate.
Qed.

Lemma riskTag_colours_witness :
  DecisionAnalysis.riskTag (Some {| Payload.overall_score := None;
                                    Payload.detailed_scores := None;
                                    Payload.decision_level := None;
                                    Payload.risk_assessment := None;
                                    Payload.recommendations := None;
                                    Payload.analysis_date := None |})
  = ("red", "未知").
Proof.
  apply (proj2 (proj2 (proj2 (riskTag_colours _)))). left. reflexivity.
Defined.

(** ** The handlers of [App] *)

(** One call of [handleAnalyze] shows exactly one toast.  Without a
    selected location the warning is all it does: no request is sent and
    the state is left as it was.  With one, exactly one request is sent,
    for that location, with radius 1000 and the selected city name, and
    the toast is the success message for an ok response that parses and
    the error message for every other outcome. *)
Theorem handleAnalyze_request (respond : AppShell.Request -> AppShell.Outcome)
        (st : AppShell.State) :
  let events := AppShell.handleAnalyze respond st in
  List.length (filter AppShell.isMessage events) = 1%nat
  /\ (AppShell.selectedLocation st = None ->
      events = [AppShell.MessageWarning "请先选择位置"]
      /\ AppShell.run st events = st)
  /\ (forall la lo,
        AppShell.selectedLocation st = Some (la, lo) ->
        let req := {| AppShell.url := "/analyze/location";
                      AppShell.latitude := la;
                      AppShell.longitude := lo;
                      AppShell.radius := JS.ofZ 1000;
                      AppShell.city_name := AppShell.selectedCity st |} in
        filter AppShell.isFetch events = [AppShell.Fetch req]
        /\ filter AppShell.isMessage events
           = match respond req with
             | AppShell.Response true (AppShell.Parsed _) =>
                 [AppShell.MessageSuccess "分析完成！"]
             | _ => [AppShell.MessageError "分析失败，请重试"]
             end).
Proof.
  intros events. unfold events, AppShell.handleAnalyze.
  destruct (AppShell.selectedLocation st) as [[la lo]|].
  - split; [|split].
    + destruct (respond _) as [|[|] [|d]]; reflexivity.
    + discriminate.
    + intros la' lo' H. injection H as <- <-. cbv zeta.
      change (JS.ofZ 1000) with n1000.
      destruct (respond _) as [|[|] [|d]]; split; reflexivity.
  - split; [reflexivity|]. split; [split; reflexivity | discriminate].
Qed.

Lemma handleAnalyze_request_witness :
  AppShell.handleAnalyze (fun _ => AppShell.Rejected) AppShell.initial
  = [AppShell.MessageWarning "请先选择位置"]
  /\ AppShell.run AppShell.initial
       (AppShell.handleAnalyze (fun _ => AppShell.Rejected) AppShell.initial)
     = AppShell.initial.
Proof.
  apply (proj1 (proj2 (handleAnalyze_request
                         (fun _ => AppShell.Rejected) AppShell.initial))).
  reflexivity.
Defined.

(** After [handleAnalyze] with a selected location the loading flag is
    down again whatever the server did, the selection is untouched, and
    the analysis data is replaced only by the body of an ok response that
    parses: on any failure the previous data stays. *)
Theorem handleAnalyze_final_state
        (respond : AppShell.Request -> AppShell.Outcome)
        (st : AppShell.State) (la lo : JS.number)
        (Hloc : AppShell.selectedLocation st = Some (la, lo)) :
  let req := {| AppShell.url := "/analyze/location";
                AppShell.latitude := la;
                AppShell.longitude := lo;
                AppShell.radius := JS.ofZ 1000;
                AppShell.city_name := AppShell.selectedCity st |} in
  let st' := AppShell.run st (AppShell.handleAnalyze respond st) in
  AppShell.loading st' = false
  /\ AppShell.selectedLocation st' = AppShell.selectedLocation st
  /\ AppShell.selectedCity st' = AppShell.selectedCity st
  /\ AppShell.selectedMenu st' = AppShell.selectedMenu st
  /\ AppShell.analysisData st'
     = match respond req with
       | AppShell.Response true (AppShell.Parsed data) => data
       | _ => AppShell.analysisData st
       end.
Proof.
  intros req st'. unfold st', AppShell.handleAnalyze. rewrite Hloc.
  subst req. change (JS.ofZ 1000) with n1000.
  destruct (respond _) as [|[|] [|d]]; cbn; rewrite ?Hloc; repeat split.
Qed.

Lemma handleAnalyze_final_state_witness :
  AppShell.loading
    (AppShell.run
       (AppShell.run AppShell.initial (AppShell.handleCitySelect "北京"))
       (AppShell.handleAnalyze
          (fun _ => AppShell.Response false AppShell.Unparsable)
          (AppShell.run AppShell.initial (AppShell.handleCitySelect "北京"))))
  = false.
Proof.
  refine (proj1 (handleAnalyze_final_state
                   (fun _ => AppShell.Response false AppShell.Unparsable)
                   (AppShell.run AppShell.initial
                                 (AppShell.handleCitySelect "北京"))
                   _ _ _)).
  reflexivity.
Defined.

Lemma handleCitySelect_listed (c : City) :
  In c cities ->
  AppShell.handleCitySelect (name c)
  = [AppShell.SetSelectedLocation (lat c) (lng c);
     AppShell.SetSelectedCity (name c)].
Proof.
  intros Hin. simpl in Hin.
  destruct Hin as [<-|[<-|[<-|[<-|[<-|[<-|[<-|[<-|[]]]]]]]]];
    reflexivity.
Qed.

(** Selecting a listed city sets the location to its coordinates and
    records its name; a name outside the table changes nothing. *)
Theorem handleCitySelect_table (cityName : string) :
  (forall c, In c cities -> name c = cityName ->
             AppShell.handleCitySelect cityName
             = [AppShell.SetSelectedLocation (lat c) (lng c);
                AppShell.SetSelectedCity cityName])
  /\ ((forall c, In c cities -> name c <> cityName) ->
      AppShell.handleCitySelect cityName = []).
Proof.
  split.
  - intros c Hin <-. apply handleCitySelect_listed. exact Hin.
  - intros Hno. unfold AppShell.handleCitySelect.
    destruct (find (fun c => String.eqb (name c) cityName) cities)
      as [c|] eqn:E; [|reflexivity].
    apply find_some in E. destruct E as [Hin Heq].
    apply String.eqb_eq in Heq. destruct (Hno c Hin Heq).
Qed.

Lemma handleCitySelect_table_witness :
  AppShell.handleCitySelect "火星" = [].
Proof.
  apply (proj2 (handleCitySelect_table "火星")).
  intros c Hin. simpl in Hin.
  destruct Hin as [<-|[<-|[<-|[<-|[<-|[<-|[<-|[<-|[]]]]]]]]];
    discriminate.
Defined.

(** A location picked on the map after a city was selected replaces the
    coordinates but not the city name: the request then carries the map
    coordinates together with the name of the city selected before. *)
Theorem city_name_outlives_map_click
        (respond : AppShell.Request -> AppShell.Outcome)
        (st0 : AppShell.State) (c : City) (la lo : JS.number)
        (Hc : In c cities) :
  let st := AppShell.run st0 (AppShell.handleCitySelect (name c)
                              ++ AppShell.handleLocationSelect la lo) in
  filter AppShell.isFetch (AppShell.handleAnalyze respond st)
  = [AppShell.Fetch
       {| AppShell.url := "/analyze/location";
          AppShell.latitude := la;
          AppShell.longitude := lo;
          AppShell.radius := JS.ofZ 1000;
          AppShell.city_name := name c |}].
Proof.
  intros st.
  assert (E : AppShell.selectedLocation st = Some (la, lo)
              /\ AppShell.selectedCity st = name c).
  { unfold st.
    rewrite (handleCitySelect_listed c Hc).
    split; reflexivity. }
  destruct E as [E1 E2]. unfold AppShell.handleAnalyze.
  rewrite E1, E2. destruct (respond _) as [|[|] [|d]]; reflexivity.
Qed.

Lemma city_name_outlives_map_click_witness :
  filter AppShell.isFetch
    (AppShell.handleAnalyze (fun _ => AppShell.Rejected)
       (AppShell.run AppShell.initial
          (AppShell.handleCitySelect "上海"
           ++ AppShell.handleLocationSelect (JS.ofZ 10) (JS.ofZ 20))))
  = [AppShell.Fetch
       {| AppShell.url := "/analyze/location";
          AppShell.latitude := JS.ofZ 10;
          AppShell.longitude := JS.ofZ 20;
          AppShell.radius := JS.ofZ 1000;
          AppShell.city_name := "上海" |}].
Proof.
  apply (city_name_outlives_map_click
           (fun _ => AppShell.Rejected) AppShell.initial
           {| name := "上海"; lat := JS.ofDecimal 312304 10000;
              lng := JS.ofDecimal 1214737 10000 |}
           (JS.ofZ 10) (JS.ofZ 20)).
  simpl. right. left. reflexivity.
Defined.

(** ** The map view *)

Lemma fold_onSelectedLocation
      (props : list (option (JS.number * JS.number)))
      (v : MapComponent.MapView) :
  fold_left MapComponent.onSelectedLocation props v
  = match MapComponent.lastSelected props with
    | Some (la, lo) =>
        {| MapComponent.mapCenter := (la, lo);
           MapComponent.mapZoom := MapComponent.n15 |}
    | None => v
    end.
Proof.
  revert v. induction props as [|p rest IH]; intros v; simpl.
  - reflexivity.
  - rewrite IH. destruct (MapComponent.lastSelected rest) as [[la lo]|].
    + reflexivity.
    + destruct p as [[la lo]|]; reflexivity.
Qed.

(** After any succession of values of the [selectedLocation] prop the
    centre held by the component is the last location that was given, with
    zoom 15; a selection withdrawn later does not move it back, and with
    no location ever given it stays on Beijing with zoom 10. *)
Theorem map_follows_last_selection
        (props : list (option (JS.number * JS.number))) :
  (forall la lo,
      MapComponent.lastSelected props = Some (la, lo) ->
      MapComponent.viewAfter props
      = {| MapComponent.mapCenter := (la, lo);
           MapComponent.mapZoom := JS.ofZ 15 |})
  /\ (MapComponent.lastSelected props = None ->
      MapComponent.viewAfter props
      = {| MapComponent.mapCenter :=
             (JS.ofDecimal 399042 10000, JS.ofDecimal 1164074 10000);
           MapComponent.mapZoom := JS.ofZ 10 |})
  /\ (forall l,
        MapComponent.viewAfter (props ++ [Some l; None])
        = MapComponent.viewAfter (props ++ [Some l])).
Proof.
  unfold MapComponent.viewAfter. split; [|split].
  - intros la lo H. rewrite fold_onSelectedLocation, H. reflexivity.
  - intros H. rewrite fold_onSelectedLocation, H. reflexivity.
  - intros l. rewrite !fold_left_app. reflexivity.
Qed.

Lemma map_follows_last_selection_witness :
  MapComponent.viewAfter [Some (JS.ofZ 1, JS.ofZ 2); None;
                          Some (JS.ofZ 3, JS.ofZ 4); None]
  = {| MapComponent.mapCenter := (JS.ofZ 3, JS.ofZ 4);
       MapComponent.mapZoom := JS.ofZ 15 |}.
Proof.
  apply (proj1 (map_follows_last_selection
                  [Some (JS.ofZ 1, JS.ofZ 2); None;
                   Some (JS.ofZ 3, JS.ofZ 4); None])).
  reflexivity.
Defined.

(** ** The palette of the land-use chart *)

(** Every cell of the land-use chart gets a colour of the palette, never
    an undefined one, and the colours repeat with period five. *)
Theorem cellFill_cycles (index : nat) :
  (exists c, EnergyAssessment.cellFill index = Some c
             /\ In c EnergyAssessment.COLORS)
  /\ EnergyAssessment.cellFill (index + 5)
     = EnergyAssessment.cellFill index
  /\ (forall j, (j < 5)%nat -> (index < 5)%nat ->
                EnergyAssessment.cellFill index
                = EnergyAssessment.cellFill j -> index = j).
Proof.
  unfold EnergyAssessment.cellFill.
  change (List.length EnergyAssessment.COLORS) with 5%nat.
  split; [|split].
  - pose proof (Nat.mod_upper_bound index 5 ltac:(discriminate)) as B.
    destruct (index mod 5)%nat as [|[|[|[|[|k]]]]]; [..|lia];
      eexists; (split; [reflexivity | simpl; auto 10]).
  - replace (index + 5)%nat with (index + 1 * 5)%nat by lia.
    rewrite Nat.Div0.mod_add. reflexivity.
  - intros j Hj Hi.
    rewrite (Nat.mod_small index 5 Hi), (Nat.mod_small j 5 Hj).
    destruct index as [|[|[|[|[|k]]]]]; [..|lia];
      destruct j as [|[|[|[|[|k']]]]]; try lia;
      simpl; intros H; try reflexivity; discriminate H.
Qed.

Lemma cellFill_cycles_witness : 3%nat = 3%nat.
Proof.
  apply (proj2 (proj2 (cellFill_cycles 3)) 3%nat); [lia | lia | reflexivity].
Defined.

(** ** The custom-coordinate form and the city buttons *)

(** The coordinates of every listed city pass the guard of the form:
    typed in as text that parses to them, they are sent on and not
    refused. *)
Theorem listed_city_passes_guard
        (parseFloat : string -> JS.number) (c : City)
        (customLat customLng : string) (customRadius : JS.number)
        (Hc : In c cities)
        (Hlat : customLat <> "") (Hlng : customLng <> "")
        (Plat : parseFloat customLat = lat c)
        (Plng : parseFloat customLng = lng c) :
  App.onClick parseFloat customLat customLng customRadius
  = [App.HandleAnalyze (lat c) (lng c) customRadius].
Proof.
  unfold App.onClick. rewrite Plat, Plng.
  destruct customLat; [congruence|]. destruct customLng; [congruence|].
  cbn [JS.truthyStr andb].
  simpl in Hc.
  destruct Hc as [<-|[<-|[<-|[<-|[<-|[<-|[<-|[<-|[]]]]]]]]];
    reflexivity.
Qed.

Lemma listed_city_passes_guard_witness :
  App.onClick Scenario.parseFloatSample "39.9042" "116.4074" (JS.ofZ 500)
  = [App.HandleAnalyze (JS.ofDecimal 399042 10000)
                       (JS.ofDecimal 1164074 10000) (JS.ofZ 500)].
Proof.
  apply (listed_city_passes_guard
           Scenario.parseFloatSample
           {| name := "北京"; lat := JS.ofDecimal 399042 10000;
              lng := JS.ofDecimal 1164074 10000 |}
           "39.9042" "116.4074" (JS.ofZ 500)).
  - simpl. left. reflexivity.
  - discriminate.
  - discriminate.
  - reflexivity.
  - reflexivity.
Defined.

(** A click on the custom button raises exactly one alert box and sends
    at most one request, which carries the parsed coordinates and the
    chosen radius; once a request was sent the loading flag ends down. *)
Theorem customButton_effects
        (respond : AppForm.Request -> AppForm.Outcome)
        (parseFloat : string -> JS.number)
        (customLat customLng : string) (customRadius : JS.number)
        (loading : bool) :
  let events :=
    AppForm.customButton respond parseFloat customLat customLng customRadius
  in
  List.length (filter AppForm.isAlert events) = 1%nat
  /\ (AppForm.requests events = [] /\
      AppForm.loadingAfter loading events = loading
      \/ AppForm.requests events
         = [{| AppForm.url := "http://localhost:8000/analyze/location";
               AppForm.latitude := parseFloat customLat;
               AppForm.longitude := parseFloat customLng;
               AppForm.radius := customRadius |}] /\
         AppForm.loadingAfter loading events = false).
Proof.
  intros events. unfold events, AppForm.customButton, App.onClick.
  destruct (JS.truthyStr customLat && JS.truthyStr customLng)%bool;
    [|split; [reflexivity | left; split; reflexivity]].
  destruct ((parseFloat customLat >= - n90)%js
            && (parseFloat customLat <= n90)%js
            && (parseFloat customLng >= - n180)%js
            && (parseFloat customLng <= n180)%js)%bool;
    [|split; [reflexivity | left; split; reflexivity]].
  cbn [flat_map AppForm.perform AppForm.handleAnalyze app].
  destruct (respond _) as [|[|] [|d]];
    (split; [reflexivity | right; split; reflexivity]).
Qed.

(** A click on a city button selects the city, sends exactly one request
    for its coordinates with the default radius 1000, raises exactly one
    alert box and ends with the loading flag down. *)
Theorem cityButton_effects
        (respond : AppForm.Request -> AppForm.Outcome) (city : City)
        (loading : bool) :
  let events := AppForm.cityButton respond city in
  hd_error events = Some (AppForm.SetSelectedLocation (lat city) (lng city))
  /\ AppForm.requests events
     = [{| AppForm.url := "http://localhost:8000/analyze/location";
           AppForm.latitude := lat city;
           AppForm.longitude := lng city;
           AppForm.radius := JS.ofZ 1000 |}]
  /\ List.length (filter AppForm.isAlert events) = 1%nat
  /\ AppForm.loadingAfter loading events = false.
Proof.
  intros events. unfold events, AppForm.cityButton, AppForm.handleAnalyze.
  destruct (respond _) as [|[|] [|d]]; repeat split.
Qed.

(** The alert of the form tells the two refusals apart: the request to
    enter both coordinates is raised exactly when a field is empty; text
    that is present but parses to NaN or out of range raises the range
    alert. *)
Theorem onClick_alert_text
        (parseFloat : string -> JS.number)
        (customLat customLng : string) (customRadius : JS.number) :
  let effects := App.onClick parseFloat customLat customLng customRadius in
  (effects = [App.Alert "请输入纬度和经度"] <->
   customLat = "" \/ customLng = "")
  /\ (customLat <> "" -> customLng <> "" ->
      parseFloat customLat = JS.NaN \/ parseFloat customLng = JS.NaN ->
      effects
      = [App.Alert "请输入有效的坐标范围：纬度(-90到90)，经度(-180到180)"]).
Proof.
  intros effects. unfold effects, App.onClick. split.
  - destruct customLat as [|a s], customLng as [|b t];
      cbn [JS.truthyStr andb].
    + split; [intros _; left; reflexivity | reflexivity].
    + split; [intros _; left; reflexivity | reflexivity].
    + split; [intros _; right; reflexivity | reflexivity].
    + split.
      * destruct (_ && _ && _ && _)%bool; intros H; discriminate H.
      * intros [H|H]; discriminate H.
  - intros Hlat Hlng Hnan.
    destruct customLat as [|a s]; [congruence|].
    destruct customLng as [|b t]; [congruence|].
    cbn [JS.truthyStr andb].
    destruct Hnan as [-> | ->].
    + reflexivity.
    + cbn. rewrite !andb_false_r. reflexivity.
Qed.

Lemma onClick_alert_text_witness :
  App.onClick Scenario.parseFloatSample " " "116.4074" (JS.ofZ 1000)
  = [App.Alert "请输入有效的坐标范围：纬度(-90到90)，经度(-180到180)"].
Proof.
  apply (proj2 (onClick_alert_text Scenario.parseFloatSample
                  " " "116.4074" (JS.ofZ 1000))).
  - discriminate.
  - discriminate.
  - left. reflexivity.
Defined.
